(** * nidmd-dashboard: the upload / validate / reset / progress callbacks

    A shallow embedding of the callbacks that [Dashboard.run_dash] registers
    in [src/main/python/dashboard.py], and of the helper [_parse_files] they
    share.  The dashboard object ([self]) is a record that the callbacks
    receive and return; numpy, scipy, pandas and nidmd are collaborators whose
    operations are the methods of a class. *)

From Stdlib Require Import ZArith List String Ascii Bool Lia SpecFloat.
From Stdlib Require Import DecimalString.
Import ListNotations.
Local Open Scope string_scope.
Local Open Scope Z_scope.

(** ** Python values the callbacks compute with *)

(** Exceptions, by class.  [str(e)] is the message. *)
Inductive exn : Type :=
| ImportError (msg : string)
| ValueError (msg : string)
| TypeError (msg : string)
| AttributeError (msg : string)
| OverflowError (msg : string)
| LibraryError (msg : string).

Definition str (e : exn) : string :=
  match e with
  | ImportError m | ValueError m | TypeError m
  | AttributeError m | OverflowError m | LibraryError m => m
  end.

(** A call that returns or raises. *)
Inductive result (A : Type) : Type :=
| Ok (a : A)
| Raise (e : exn).
Arguments Ok {A} a.
Arguments Raise {A} e.

Definition rbind {A B} (r : result A) (k : A -> result B) : result B :=
  match r with
  | Ok a => k a
  | Raise e => Raise e
  end.

(** The three [ImportError]s the dashboard raises itself. *)
Definition NoMatrixFound : exn :=
  ImportError "Invalid .mat file, no matrices inside.".
Definition MalformedCsv : exn :=
  ImportError "Problem reading the csv file.".
Definition MissingReference : exn :=
  ImportError "Please upload Reference group before Match group.".

(** *** Strings *)

(** [s.split(',')]: every comma separates; the result is never empty. *)
Fixpoint split_comma (s : string) : list string :=
  match s with
  | EmptyString => [EmptyString]
  | String c rest =>
      if Ascii.eqb c "," then EmptyString :: split_comma rest
      else match split_comma rest with
           | [] => [String c EmptyString]
           | h :: t => String c h :: t
           end
  end.

(** [_, x = parts]: unpacking into two targets. *)
Definition unpack2 (parts : list string) : result string :=
  match parts with
  | [_; x] => Ok x
  | [] | [_] => Raise (ValueError "not enough values to unpack (expected 2, got 1)")
  | _ => Raise (ValueError "too many values to unpack (expected 2)")
  end.

(** The text after the last occurrence of [c], when [c] occurs. *)
Fixpoint after_last (c : ascii) (s : string) : option string :=
  match s with
  | EmptyString => None
  | String a r =>
      match after_last c r with
      | Some t => Some t
      | None => if Ascii.eqb a c then Some r else None
      end
  end.

(** [Path(name).name] for a name with forward slashes only. *)
Definition final_component (name : string) : string :=
  match after_last "/" name with
  | Some t => t
  | None => name
  end.

(** [Path(name).suffix]: with [i = name.rfind('.')], the text from [i] on
    when [0 < i < len(name) - 1], and the empty string otherwise. *)
Definition suffix (name : string) : string :=
  let n := final_component name in
  match after_last "." n with
  | Some ext =>
      if (Nat.ltb 0 (String.length ext)
          && Nat.ltb (S (String.length ext)) (String.length n))%bool
      then String "." ext
      else ""
  | None => ""
  end.

(** [key[:2] != '__'] *)
Definition not_dunder (key : string) : bool :=
  negb (String.eqb (substring 0 2 key) "__").

(** [sub in s] *)
Fixpoint contains (sub s : string) : bool :=
  (prefix sub s
   || match s with
      | EmptyString => false
      | String _ r => contains sub r
      end)%bool.

(** [str(z)] for an int. *)
Definition str_int (z : Z) : string :=
  NilEmpty.string_of_int (Z.to_int z).

(** *** Floats *)

(** Python floats are IEEE 754 binary64; [SpecFloat] gives their arithmetic
    with round-to-nearest-even. *)
Definition prec : Z := 53.
Definition emax : Z := 1024.
Definition pyfloat : Type := spec_float.

(** The int operand of a mixed int/float operation, as a float. *)
Definition float_of_int (z : Z) : pyfloat :=
  binary_normalize prec emax z 0 false.

Definition fdiv (x y : pyfloat) : pyfloat := SFdiv prec emax x y.
Definition fmul (x y : pyfloat) : pyfloat := SFmul prec emax x y.

(** [int(f)]: truncation toward zero. *)
Definition int_of_float (f : pyfloat) : result Z :=
  match f with
  | S754_zero _ => Ok 0
  | S754_finite s m e =>
      let a := if Z.leb 0 e then Z.pos m * 2 ^ e else Z.pos m / 2 ^ (- e) in
      Ok (if s then - a else a)
  | S754_infinity _ =>
      Raise (OverflowError "cannot convert float infinity to integer")
  | S754_nan => Raise (ValueError "cannot convert float NaN to integer")
  end.

(** [int(approx_deg / 100.0 * size)], line 333 of [upload]. *)
Definition no_modes (approx_deg size : Z) : result Z :=
  int_of_float
    (fmul (fdiv (float_of_int approx_deg) (float_of_int 100))
          (float_of_int size)).

(** ** The collaborators

    What the callbacks ask of base64, scipy.io, numpy, pandas and nidmd.  Every
    call may raise.  [genfromtxt] has the result type the caller tests it
    against: an array or [None]. *)
Class Collaborators : Type := {
  bytes : Type;
  ndarray : Type;
  Decomposition : Type;
  Atlas : Type;
  DataFrame : Type;
  Series : Type;
  Table : Type;
  (** [base64.b64decode] and [bytes.decode('utf-8')] *)
  b64decode : string -> result bytes;
  decode_utf8 : bytes -> result string;
  (** [sio.loadmat]: the dictionary, in key iteration order *)
  loadmat : bytes -> result (list (string * ndarray));
  (** [np.genfromtxt(io.StringIO(text), delimiter=",")] *)
  genfromtxt : string -> result (option ndarray);
  (** [Decomposition(data=..., sampling_time=...)], [.run()], [.atlas],
      [.atlas.size], [.compute_match(other, m)] *)
  new_Decomposition : list (option ndarray) -> pyfloat -> result Decomposition;
  dcp_run : Decomposition -> result Decomposition;
  dcp_atlas : Decomposition -> option Atlas;
  atlas_size : Atlas -> Z;
  compute_match :
    Decomposition -> Decomposition -> Z -> result (DataFrame * Series * Series);
  (** [_create_table] on the four columns of [.df], and on a match table *)
  dcp_table : Decomposition -> result Table;
  match_table : DataFrame -> result Table
}.

(** ** The dashboard object

    The attributes [__init__] initialises and [rst] clears.  [progress] holds
    the integer values of the counter. *)
Record Dashboard {L : Collaborators} : Type := mkDashboard {
  dcp1 : option Decomposition;
  dcp2 : option Decomposition;
  match_group : option Decomposition;
  match_df : option DataFrame;
  match_x : option Series;
  match_y : option Series;
  atlas : option Atlas;
  progress : Z;
  valid : bool;
  imag : bool
}.
Arguments mkDashboard {L}.

Section Attributes.
Context {L : Collaborators}.

(** The state [__init__] builds, and [rst] restores. *)
Definition init : Dashboard :=
  mkDashboard None None None None None None None 0 false false.

Definition set_dcp1 (v : option Decomposition) (self : Dashboard) : Dashboard :=
  mkDashboard v (dcp2 self) (match_group self) (match_df self) (match_x self)
    (match_y self) (atlas self) (progress self) (valid self) (imag self).
Definition set_dcp2 (v : option Decomposition) (self : Dashboard) : Dashboard :=
  mkDashboard (dcp1 self) v (match_group self) (match_df self) (match_x self)
    (match_y self) (atlas self) (progress self) (valid self) (imag self).
Definition set_match_group (v : option Decomposition) (self : Dashboard) : Dashboard :=
  mkDashboard (dcp1 self) (dcp2 self) v (match_df self) (match_x self)
    (match_y self) (atlas self) (progress self) (valid self) (imag self).
Definition set_match (df : DataFrame) (x y : Series) (self : Dashboard) : Dashboard :=
  mkDashboard (dcp1 self) (dcp2 self) (match_group self) (Some df) (Some x)
    (Some y) (atlas self) (progress self) (valid self) (imag self).
Definition set_atlas (v : option Atlas) (self : Dashboard) : Dashboard :=
  mkDashboard (dcp1 self) (dcp2 self) (match_group self) (match_df self)
    (match_x self) (match_y self) v (progress self) (valid self) (imag self).
Definition set_progress (v : Z) (self : Dashboard) : Dashboard :=
  mkDashboard (dcp1 self) (dcp2 self) (match_group self) (match_df self)
    (match_x self) (match_y self) (atlas self) v (valid self) (imag self).
Definition set_valid (v : bool) (self : Dashboard) : Dashboard :=
  mkDashboard (dcp1 self) (dcp2 self) (match_group self) (match_df self)
    (match_x self) (match_y self) (atlas self) (progress self) v (imag self).
Definition get_progress (self : Dashboard) : Z := progress self.

Definition is_none {A} (o : option A) : bool :=
  match o with None => true | Some _ => false end.
End Attributes.

(** ** Code that mutates and may raise

    A computation over a store [S] returns or raises, and hands back the
    store either way: what was assigned before a [raise] stays assigned. *)
Definition M (S A : Type) : Type := S -> result A * S.

Definition ret {S A} (a : A) : M S A := fun s => (Ok a, s).
Definition raise {S A} (e : exn) : M S A := fun s => (Raise e, s).
Definition bind {S A B} (m : M S A) (k : A -> M S B) : M S B :=
  fun s =>
    match m s with
    | (Ok a, s') => k a s'
    | (Raise e, s') => (Raise e, s')
    end.
Definition lift {S A} (r : result A) : M S A := fun s => (r, s).
Definition gets {S A} (f : S -> A) : M S A := fun s => (Ok (f s), s).
Definition modify {S} (f : S -> S) : M S unit := fun s => (Ok tt, f s).

(** [keeps f m]: whether it returns or raises, [m] ends in a store with the
    [f] it started from. *)
Definition keeps {S A X : Type} (f : S -> X) (m : M S A) : Prop :=
  forall s, f (snd (m s)) = f s.

Declare Scope py_scope.
Delimit Scope py_scope with py.
Notation "x <- m ;; k" := (bind m (fun x => k))
  (at level 61, m at next level, right associativity) : py_scope.
Notation "m ;;; k" := (bind m (fun _ => k))
  (at level 61, right associativity) : py_scope.
Notation "x <~ r ;; k" := (rbind r (fun x => k))
  (at level 61, r at next level, right associativity) : py_scope.

(** ** The callbacks of [run_dash]

    Log lines are not part of the model: they leave the dashboard object and
    every output as they are. *)
Module run_dash.
Section Callbacks.
Context {L : Collaborators}.
Local Open Scope py_scope.

(** *** [_parse_files] *)

(** The loop over the keys of a loaded [.mat] file: [d] is rebound at every
    key that does not start with two underscores. *)
Definition pick_matrix (matfile : list (string * ndarray)) : option ndarray :=
  fold_left (fun d kv => if not_dunder (fst kv) then Some (snd kv) else d)
    matfile None.

(** Lines 631-643: from the text after the comma to the matrix. *)
Definition read_mat (string : string) : result (option ndarray) :=
  mat <~ b64decode string ;;
  matfile <~ loadmat mat ;;
  match pick_matrix matfile with
  | None => Raise NoMatrixFound
  | Some d => Ok (Some d)
  end.

(** Lines 649-658. *)
Definition read_csv (content_string : string) : result (option ndarray) :=
  decoded <~ b64decode content_string ;;
  text <~ decode_utf8 decoded ;;
  d <~ genfromtxt text ;;
  match d with
  | None => Raise MalformedCsv
  | Some a => Ok (Some a)
  end.

(** One turn of the loop over [zip(contents, files)]: the value appended to
    [data]. *)
Definition parse_file (content name : string) : result (option ndarray) :=
  if String.eqb (suffix name) ".mat" then
    string <~ unpack2 (split_comma content) ;;
    read_mat string
  else if String.eqb (suffix name) ".csv" then
    content_string <~ unpack2 (split_comma content) ;;
    read_csv content_string
  else Ok None.

Fixpoint parse_loop (pairs : list (string * string)) (data : list (option ndarray))
  : result (list (option ndarray)) :=
  match pairs with
  | [] => Ok data
  | (content, name) :: rest =>
      d <~ parse_file content name ;;
      parse_loop rest (data ++ [d])
  end.

Definition _parse_files (contents : list string) (files : option (list string))
  (sampling_time : pyfloat) : M Dashboard Decomposition :=
  match files with
  | None => raise (TypeError "object of type 'NoneType' has no len()")
  | Some files =>
      data <- lift (parse_loop (combine contents files) []) ;;
      dcp <- lift (new_Decomposition data sampling_time) ;;
      modify (set_atlas (dcp_atlas dcp)) ;;;
      ret dcp
  end.

(** *** [upload] *)

(** The dashboard object together with the locals that [upload] assigns
    inside its [try] and returns after it. *)
Record Frame : Type := mkFrame {
  self : Dashboard;
  tab1 : option Table;
  tab2 : option Table;
  disabled : bool
}.

Definition on_self {A} (m : M Dashboard A) : M Frame A :=
  fun fr =>
    let '(r, s) := m (self fr) in
    (r, mkFrame s (tab1 fr) (tab2 fr) (disabled fr)).
Definition set_tab1 (t : Table) (fr : Frame) : Frame :=
  mkFrame (self fr) (Some t) (tab2 fr) (disabled fr).
Definition set_tab2 (t : Table) (fr : Frame) : Frame :=
  mkFrame (self fr) (tab1 fr) (Some t) false.

(** [float(time)] *)
Definition float_ (time : option pyfloat) : result pyfloat :=
  match time with
  | Some t => Ok t
  | None =>
      Raise (TypeError
        "float() argument must be a string or a number, not 'NoneType'")
  end.

(** [setting == k] for the radio value, which may be [None]. *)
Definition setting_is (k : Z) (setting : option Z) : bool :=
  match setting with
  | Some s => s =? k
  | None => false
  end.

(** Lines 300-307, from the return of [_parse_files] on: the assignment to
    [self.dcp1], the run and the table. *)
Definition group1_parsed (dcp : Decomposition) : M Frame unit :=
  on_self (modify (set_dcp1 (Some dcp))) ;;;
  dcp' <- lift (dcp_run dcp) ;;
  on_self (modify (set_dcp1 (Some dcp'))) ;;;
  tab <- lift (dcp_table dcp') ;;
  modify (set_tab1 tab).

(** Lines 297-307: the first upload slot. *)
Definition upload_group1 (contents1 : option (list string))
  (time : option pyfloat) (names1 : option (list string)) : M Frame unit :=
  match contents1 with
  | Some c1 =>
      t <- lift (float_ time) ;;
      dcp <- on_self (_parse_files c1 names1 t) ;;
      group1_parsed dcp
  | None => ret tt
  end.

(** Lines 315-320, from the return of [_parse_files] on. *)
Definition comparison_parsed (dcp : Decomposition) : M Frame unit :=
  on_self (modify (set_dcp2 (Some dcp))) ;;;
  dcp' <- lift (dcp_run dcp) ;;
  on_self (modify (set_dcp2 (Some dcp'))) ;;;
  tab <- lift (dcp_table dcp') ;;
  modify (set_tab2 tab).

(** Lines 311-320: the second slot in the Comparison setting. *)
Definition upload_comparison (c2 : list string) (time : option pyfloat)
  (names2 : option (list string)) : M Frame unit :=
  t <- lift (float_ time) ;;
  dcp <- on_self (_parse_files c2 names2 t) ;;
  comparison_parsed dcp.

(** Lines 326-341, from the return of [_parse_files] on: the match group is
    stored and run, then the reference is looked for. *)
Definition match_parsed (mg : Decomposition) (approx_deg : option Z)
  : M Frame unit :=
  on_self (modify (set_match_group (Some mg))) ;;;
  mg' <- lift (dcp_run mg) ;;
  on_self (modify (set_match_group (Some mg'))) ;;;
  ref <- gets (fun fr => dcp1 (self fr)) ;;
  match ref with
  | None => raise MissingReference
  | Some ref =>
      deg <- lift (match approx_deg with
                   | Some d => Ok d
                   | None => Raise (TypeError
                       "unsupported operand type(s) for /: 'NoneType' and 'float'")
                   end) ;;
      a <- lift (match dcp_atlas mg' with
                 | Some a => Ok a
                 | None => Raise (AttributeError
                     "'NoneType' object has no attribute 'size'")
                 end) ;;
      m <- lift (no_modes deg (atlas_size a)) ;;
      r <- lift (compute_match ref mg' m) ;;
      on_self (modify (set_match (fst (fst r)) (snd (fst r)) (snd r))) ;;;
      tab <- lift (match_table (fst (fst r))) ;;
      modify (set_tab2 tab)
  end.

(** Lines 322-341: the second slot in the Mode Matching setting. *)
Definition upload_match (c2 : list string) (time : option pyfloat)
  (names2 : option (list string)) (approx_deg : option Z) : M Frame unit :=
  t <- lift (float_ time) ;;
  mg <- on_self (_parse_files c2 names2 t) ;;
  match_parsed mg approx_deg.

(** Lines 309-341. *)
Definition upload_group2 (contents2 : option (list string))
  (time : option pyfloat) (names2 : option (list string))
  (setting approx_deg : option Z) : M Frame unit :=
  if setting_is 1 setting then ret tt
  else
    s <- gets self ;;
    match contents2 with
    | Some c2 =>
        if (is_none (dcp2 s) || is_none (match_group s))%bool then
          (if setting_is 2 setting
           then upload_comparison c2 time names2 else ret tt) ;;;
          (if setting_is 3 setting
           then upload_match c2 time names2 approx_deg else ret tt)
        else ret tt
    | None => ret tt
    end.

(** Lines 297-341: the body of the [try]. *)
Definition upload_try (contents1 contents2 : option (list string))
  (time : option pyfloat) (names1 names2 : option (list string))
  (setting approx_deg : option Z) : M Frame unit :=
  upload_group1 contents1 time names1 ;;;
  upload_group2 contents2 time names2 setting approx_deg.

(** What [upload] returns, the two lists of names apart: the tables, whether
    the second tab is disabled, whether each progress bar is hidden, and the
    alert. *)
Record UploadOutputs : Type := mkUploadOutputs {
  out_tab1 : option Table;
  out_tab2 : option Table;
  out_disabled : bool;
  out_hide1 : bool;
  out_hide2 : bool;
  out_message : string;
  out_error : bool
}.

(** [upload]; [None] is [PreventUpdate]. *)
Definition upload (contents1 contents2 : option (list string))
  (time : option pyfloat) (names1 names2 : option (list string))
  (setting approx_deg : option Z) (d : Dashboard)
  : option (UploadOutputs * Dashboard) :=
  if (is_none contents1 && is_none contents2
      && is_none names1 && is_none names2)%bool
  then None
  else
    let '(r, fr) :=
      upload_try contents1 contents2 time names1 names2 setting approx_deg
        (mkFrame d None None true) in
    let '(message, error) :=
      match r with
      | Ok _ => ("", false)
      | Raise e => (str e, true)
      end in
    Some (mkUploadOutputs (tab1 fr) (tab2 fr) (disabled fr)
            (negb (is_none contents1)) (negb (is_none contents2))
            message error,
          self fr).

(** *** [input_setting] *)

Inductive style : Type := hide | show | dashed_box.

(** The nine outputs, in the order of the callback's declaration. *)
Record SettingView : Type := mkSettingView {
  upload_1_div : style;
  upload_2_div : style;
  group_2_t : style;
  group_2_p : style;
  group_1_title : string;
  group_2_title : option string;
  upload_1_prompt : option string;
  upload_2_prompt : option string;
  approx_deg_div : style
}.

(** [input_setting] reads and writes no attribute of the dashboard object.
    A value other than the three of the radio falls off the end of the
    [if]: the callback returns [None]. *)
Definition input_setting (value : option Z) : option SettingView :=
  match value with
  | None =>
      Some (mkSettingView hide hide hide hide "Selected files"
              None None None hide)
  | Some v =>
      if v =? 1 then
        Some (mkSettingView dashed_box hide hide hide "Selected files" None
                (Some "Drag and Drop or Select Files") None hide)
      else if v =? 2 then
        Some (mkSettingView dashed_box dashed_box show show
                "Group 1" (Some "Group 2")
                (Some "Group 1: Drag and Drop or Select Files")
                (Some "Group 2: Drag and Drop or Select Files") hide)
      else if v =? 3 then
        Some (mkSettingView dashed_box dashed_box show show
                "Reference Group" (Some "Match Group")
                (Some "Reference Group: Drag and Drop or Select Files")
                (Some "Match Group: Drag and Drop or Select Files") show)
      else None
  end.

(** *** [validate] *)

(** The [if setting is not None ... else ...] statement of lines 408-429:
    the message and the error flag it leaves. *)
Definition validate_checks (setting : option Z) (d : Dashboard)
  : string * bool :=
  match setting with
  | Some s =>
      if s =? 1 then
        if is_none (dcp1 d) then ("No file(s) chosen. ", true) else ("", false)
      else if s =? 2 then
        if (is_none (dcp1 d) || is_none (dcp2 d))%bool then
          ("Group " ++ (if is_none (dcp2 d) then "2" else "1") ++ " missing. ",
           true)
        else ("", false)
      else if s =? 3 then
        let '(message, error) :=
          if is_none (dcp1 d) then ("Reference group missing. ", true)
          else ("", false) in
        if is_none (match_df d) then
          (message ++ "Match group is loading. Please wait. ", true)
        else (message, error)
      else if is_none (atlas d) then
        ("Parsing unsuccessful, no atlas found. ", true)
      else ("", false)
  | None => ("No setting chosen. ", true)
  end.

(** [validate]: the message, whether the alert is shown, and the dashboard
    object afterwards.  [None] is [PreventUpdate]. *)
Definition validate (n : option Z) (setting : option Z) (d : Dashboard)
  : option (string * bool * Dashboard) :=
  match n with
  | None => None
  | Some _ =>
      let '(message, error) := validate_checks setting d in
      if error then Some (message ++ "Check log for more info.", true, d)
      else Some (message, false, set_valid true d)
  end.

(** *** [rst] *)

(** [None] is [PreventUpdate]; the layout that is returned is the initial
    one. *)
Definition rst (n : option Z) (d : Dashboard) : option Dashboard :=
  match n with
  | None => None
  | Some _ =>
      Some (mkDashboard None None None None None None None 0 false false)
  end.

(** *** [imag_switch] *)

Definition imag_switch (switch : list Z) (d : Dashboard) : Dashboard :=
  mkDashboard (dcp1 d) (dcp2 d) (match_group d) (match_df d) (match_x d)
    (match_y d) (atlas d) (get_progress d) (valid d)
    (match switch with [v] => v =? 1 | _ => false end).

(** *** [progress] *)

(** The value of the bar and its label. *)
Definition progress (d : Dashboard) : Z * string :=
  let prog := Z.min (get_progress d mod 110) 100 in
  (prog, (if 5 <=? prog then str_int prog else "") ++ " %").

(** *** [compute_spectre]: the two assertions of lines 490-491

    They are evaluated when the figure is requested, the input is valid and
    a match group is held. *)
Definition spectre_asserts (d : Dashboard) : bool :=
  if is_none (match_group d) then true
  else (negb (is_none (match_x d)) && negb (is_none (match_y d)))%bool.

(** ** The dispatcher: one callback at a time

    The events are the inputs of the callbacks above, with the arguments the
    callback is given.  The figure callbacks are left out: of the attributes
    they assign [progress] only, by float increments. *)

Inductive event : Type :=
| SettingSelected (value : option Z)
| FilesUploaded (contents1 contents2 : option (list string))
    (time : option pyfloat) (names1 names2 : option (list string))
    (setting approx_deg : option Z)
| RunClicked (n setting : option Z)
| ResetClicked (n : option Z)
| ImagSwitched (switch : list Z)
| ProgressInterval.

(** The dashboard object after the callback of an event; [PreventUpdate]
    leaves it as it is. *)
Definition handle (e : event) (d : Dashboard) : Dashboard :=
  match e with
  | SettingSelected _ => d
  | FilesUploaded c1 c2 t n1 n2 s a =>
      match upload c1 c2 t n1 n2 s a d with
      | Some (_, d') => d'
      | None => d
      end
  | RunClicked n s =>
      match validate n s d with
      | Some (_, _, d') => d'
      | None => d
      end
  | ResetClicked n =>
      match rst n d with
      | Some d' => d'
      | None => d
      end
  | ImagSwitched sw => imag_switch sw d
  | ProgressInterval => d
  end.

Definition handle_all (es : list event) (d : Dashboard) : Dashboard :=
  fold_left (fun d e => handle e d) es d.

(** Whether an event is an upload made under setting [k]. *)
Definition uploads_under (k : Z) (e : event) : bool :=
  match e with
  | FilesUploaded _ _ _ _ _ s _ => setting_is k s
  | _ => false
  end.

End Callbacks.
End run_dash.

(** ** A library to run the callbacks on

    Base64 is the real one.  The matrix container is a text of entries
    [key=row] separated by semicolons, a table is lines of comma-separated
    integers with [None] for a field that is not one ([nan]), and a
    decomposition records the data it was built from.  As numpy's
    [genfromtxt] does, the table reader returns an array for every text, an
    empty one for an empty text. *)
Module Sample.

Definition sextet (c : ascii) : option N :=
  let n := N_of_ascii c in
  (if (65 <=? n) && (n <=? 90) then Some (n - 65)
   else if (97 <=? n) && (n <=? 122) then Some (n - 71)
   else if (48 <=? n) && (n <=? 57) then Some (n + 4)
   else if n =? 43 then Some 62
   else if n =? 47 then Some 63
   else None)%N%bool.

(** The sextets before the padding; characters outside the alphabet are
    dropped. *)
Fixpoint sextets (s : string) : list N :=
  match s with
  | EmptyString => []
  | String c r =>
      if Ascii.eqb c "=" then []
      else match sextet c with
           | Some v => v :: sextets r
           | None => sextets r
           end
  end.

Fixpoint octets (fuel : nat) (l : list N) : result string :=
  match fuel, l with
  | _, [] => Ok ""
  | S f, a :: b :: c :: d :: r =>
      let w := (a * 262144 + b * 4096 + c * 64 + d)%N in
      rest <~ octets f r ;;
      Ok (String (ascii_of_N (w / 65536))
           (String (ascii_of_N ((w / 256) mod 256))
              (String (ascii_of_N (w mod 256)) rest)))
  | _, [a; b; c] =>
      let w := (a * 4096 + b * 64 + c)%N in
      Ok (String (ascii_of_N (w / 1024))
           (String (ascii_of_N ((w / 4) mod 256)) ""))
  | _, [a; b] => Ok (String (ascii_of_N ((a * 64 + b) / 16)) "")
  | _, _ => Raise (LibraryError "Incorrect padding")
  end%py.

Definition decode64 (s : string) : result string :=
  octets (String.length s) (sextets s).

(** [s.split(sep)] for a one-character separator. *)
Fixpoint split_on (sep : ascii) (s : string) : list string :=
  match s with
  | EmptyString => [EmptyString]
  | String c rest =>
      if Ascii.eqb c sep then EmptyString :: split_on sep rest
      else match split_on sep rest with
           | [] => [String c EmptyString]
           | h :: t => String c h :: t
           end
  end.

Fixpoint digits (s : string) (acc : Z) : option Z :=
  match s with
  | EmptyString => Some acc
  | String c r =>
      let n := Z.of_N (N_of_ascii c) in
      if (48 <=? n) && (n <=? 57) then digits r (10 * acc + (n - 48))
      else None
  end.

Definition field (s : string) : option Z :=
  match s with
  | EmptyString => None
  | _ => digits s 0
  end.

Definition row (line : string) : list (option Z) :=
  map field (split_on "," line).

Definition nonempty (s : string) : bool :=
  match s with EmptyString => false | _ => true end.

Definition table (text : string) : list (list (option Z)) :=
  map row (filter nonempty (split_on "010" text)).

Definition entry (e : string) : string * list (list (option Z)) :=
  match split_on "=" e with
  | key :: v :: _ => (key, [row v])
  | _ => (e, [])
  end.

Definition container (raw : string) : list (string * list (list (option Z))) :=
  map entry (filter nonempty (split_on ";" raw)).

Record decomposition : Type := mkDecomposition {
  data : list (option (list (list (option Z))));
  sampling_time : pyfloat;
  ran : bool
}.

Definition build (data : list (option (list (list (option Z)))))
  (t : pyfloat) : result decomposition :=
  if existsb is_none data
  then Raise (LibraryError "data holds an entry that is not a matrix")
  else Ok (mkDecomposition data t false).

(** The atlas is its size: the number of columns of the first row. *)
Definition atlas_of (d : decomposition) : option Z :=
  match data d with
  | Some (r :: _) :: _ => Some (Z.of_nat (List.length r))
  | _ => None
  end.

#[export] Instance lib : Collaborators := {|
  bytes := string;
  ndarray := list (list (option Z));
  Decomposition := decomposition;
  Atlas := Z;
  DataFrame := Z;
  Series := list Z;
  Table := string;
  b64decode := decode64;
  decode_utf8 := fun b => Ok b;
  loadmat := fun raw => Ok (container raw);
  genfromtxt := fun text => Ok (Some (table text));
  new_Decomposition := build;
  dcp_run := fun d => Ok (mkDecomposition (data d) (sampling_time d) true);
  dcp_atlas := atlas_of;
  atlas_size := fun a => a;
  compute_match := fun _ _ m => Ok (m, [], []);
  dcp_table := fun _ => Ok "modes";
  match_table := fun _ => Ok "match"
|}.

(** 0.72, the default of the sampling-time input. *)
Definition t072 : pyfloat := fdiv (float_of_int 72) (float_of_int 100).

(** ["1,2\n3,4\n"], ["5,6\n"] and the empty file as [.csv] uploads, and a
    container with the entries [__header__], [X], [Y], [__globals__] and one
    with no entry outside the double-underscore ones as [.mat] uploads. *)
Definition csv_a : string := "data:text/csv;base64,MSwyCjMsNAo=".
Definition csv_b : string := "data:text/csv;base64,NSw2Cg==".
Definition csv_empty : string := "data:text/csv;base64,".
Definition mat_xy : string :=
  "data:application/octet-stream;base64,X19oZWFkZXJfXz0wO1g9MSwyO1k9Myw0O19fZ2xvYmFsc19fPTA=".
Definition mat_meta : string :=
  "data:application/octet-stream;base64,X19oZWFkZXJfXz0wO19fdmVyc2lvbl9fPTE=".

Definition csv_c : string := "data:text/csv;base64,Nyw4LDkK".

(** The Comparison setting with the first group ([csv_a], two columns)
    loaded. *)
Definition group1_loaded : Dashboard :=
  run_dash.handle
    (run_dash.FilesUploaded (Some [csv_a]) None (Some t072)
       (Some ["a.csv"]) None (Some 2) (Some 5))
    init.

(** Two groups compared, then the setting changed to Mode Matching and a
    file dropped on the second slot. *)
Definition compare_then_match : list run_dash.event :=
  [ run_dash.SettingSelected (Some 2);
    run_dash.FilesUploaded (Some [csv_a]) None (Some t072)
      (Some ["a.csv"]) None (Some 2) (Some 5);
    run_dash.FilesUploaded (Some [csv_a]) (Some [csv_b]) (Some t072)
      (Some ["a.csv"]) (Some ["b.csv"]) (Some 2) (Some 5);
    run_dash.SettingSelected (Some 3);
    run_dash.FilesUploaded (Some [csv_a]) (Some [csv_c]) (Some t072)
      (Some ["a.csv"]) (Some ["c.csv"]) (Some 3) (Some 5) ].

(** The Analysis setting throughout. *)
Definition analysis_only : list run_dash.event :=
  [ run_dash.SettingSelected (Some 1);
    run_dash.FilesUploaded (Some [csv_a]) None (Some t072)
      (Some ["a.csv"]) None (Some 1) (Some 5);
    run_dash.RunClicked (Some 1) (Some 1) ].

End Sample.

(** ** What the specification says, in its own words *)

Section Specification.
Context {L : Collaborators}.

(** "selects the last top-level non-metadata entry": the entries whose key
    does not begin with the double underscore, in key order. *)
Definition qualifying (matfile : list (string * ndarray))
  : list (string * ndarray) :=
  filter (fun kv => not_dunder (fst kv)) matfile.

(** "at most one of comparison populated, matchResult populated" *)
Definition at_most_one (d : Dashboard) : Prop :=
  dcp2 d = None \/ match_df d = None.

(** "floor(degree/100 x atlas.size)" *)
Definition approxModeCount (degree atlasSize : Z) : Z :=
  degree * atlasSize / 100.

(** "required slot(s) populated per mode (slot 2 optional only in
    Analysis)"; without a mode nothing can run, and a value outside the
    three modes asks for the atlas only. *)
Definition required_present (setting : option Z) (d : Dashboard) : bool :=
  match setting with
  | None => false
  | Some s =>
      if s =? 1 then negb (is_none (dcp1 d))
      else if s =? 2 then negb (is_none (dcp1 d)) && negb (is_none (dcp2 d))
      else if s =? 3 then negb (is_none (dcp1 d)) && negb (is_none (match_df d))
      else negb (is_none (atlas d))
  end.

(** Every missing-input condition that applies, by the words that name it
    in a message. *)
Definition missing_inputs (setting : option Z) (d : Dashboard) : list string :=
  match setting with
  | None => ["No setting chosen"]
  | Some s =>
      if s =? 1 then
        if is_none (dcp1 d) then ["No file(s) chosen"] else []
      else if s =? 2 then
        (if is_none (dcp1 d) then ["Group 1 missing"] else [])
        ++ (if is_none (dcp2 d) then ["Group 2 missing"] else [])
      else if s =? 3 then
        (if is_none (dcp1 d) then ["Reference group missing"] else [])
        ++ (if is_none (match_df d) then ["Match group is loading"] else [])
      else if is_none (atlas d) then ["no atlas found"] else []
  end.

(** "accumulates every applicable missing-input condition into one
    message" *)
Definition reports_all (setting : option Z) (d : Dashboard)
  (message : string) : bool :=
  forallb (fun p => contains p message) (missing_inputs setting d).

(** The Comparison setting with neither group loaded. *)
Definition both_groups_missing (setting : option Z) (d : Dashboard) : bool :=
  run_dash.setting_is 2 setting && is_none (dcp1 d) && is_none (dcp2 d).

(** "split on the first comma": the text before it and the remainder. *)
Fixpoint split_first_comma (s : string) : option (string * string) :=
  match s with
  | EmptyString => None
  | String c r =>
      if Ascii.eqb c "," then Some (EmptyString, r)
      else match split_first_comma r with
           | Some (a, b) => Some (String c a, b)
           | None => None
           end
  end.

Fixpoint count_commas (s : string) : nat :=
  match s with
  | EmptyString => O
  | String c r => if Ascii.eqb c "," then S (count_commas r) else count_commas r
  end.

(** "min(progress mod 110, 100) as the displayed percentage" *)
Definition displayed (p : Z) : Z := Z.min (p mod 110) 100.

(** The degrees of the approximation input, 0 to 100. *)
Definition degrees : list Z := map Z.of_nat (seq 0 101).

Definition same_count (r : result Z) (z : Z) : bool :=
  match r with
  | Ok v => v =? z
  | Raise _ => false
  end.

(** "monotonically non-decreasing in degree", over the degrees of the
    input and for one atlas size. *)
Definition nondecreasing (n : Z) : bool :=
  forallb
    (fun deg =>
       match no_modes deg n, no_modes (deg + 1) n with
       | Ok a, Ok b => a <=? b
       | _, _ => false
       end)
    (map Z.of_nat (seq 0 100)).

(** The degrees at which the count of the code is not the floor. *)
Definition off_floor (n : Z) : list Z :=
  filter (fun deg => negb (same_count (no_modes deg n) (approxModeCount deg n)))
    degrees.

End Specification.

(** ** The other callbacks and helpers of [run_dash]

    The callbacks that refresh the view, the helpers that format a table
    cell, and the slot that names a download. *)

(** [s.split(sep)] for a one-character separator, and [c in s]. *)
Fixpoint split (sep : ascii) (s : string) : list string :=
  match s with
  | EmptyString => [EmptyString]
  | String c rest =>
      if Ascii.eqb c sep then EmptyString :: split sep rest
      else match split sep rest with
           | [] => [String c EmptyString]
           | h :: t => String c h :: t
           end
  end.

Fixpoint has_char (c : ascii) (s : string) : bool :=
  match s with
  | EmptyString => false
  | String a r => (Ascii.eqb a c || has_char c r)%bool
  end.

(** The line break. *)
Definition newline : ascii := "010".

(** What a callback hands to Dash: a value, [PreventUpdate], or the [None]
    of a function that falls off its last [elif]. *)
Variant callback (A : Type) : Type :=
| Returned (a : A)
| PreventUpdate
| ReturnsNone.
Arguments Returned {A} a.
Arguments PreventUpdate {A}.
Arguments ReturnsNone {A}.

(** A subscript that returns or raises [IndexError]. *)
Variant indexed (A : Type) : Type :=
| Item (a : A)
| IndexError.
Arguments Item {A} a.
Arguments IndexError {A}.

(** A table cell before it is formatted: a float, or the text that
    [_handle_complex] has already made of one. *)
Variant pynumber : Type :=
| PyFloat (f : pyfloat)
| PyStr (s : string).

Module views.

(** *** [_set_precision] and [_handle_complex]

    [str] of a numpy float is the collaborator [float_str]. *)
Section Format.
Variable float_str : pyfloat -> string.

(** [number == np.inf] *)
Definition is_inf (number : pynumber) : bool :=
  match number with
  | PyFloat (S754_infinity false) => true
  | _ => false
  end.

Definition _set_precision (number : pynumber) : indexed string :=
  if is_inf number then Item "inf"
  else
    let number :=
      match number with
      | PyStr s => s
      | PyFloat f => float_str f
      end in
    match split "." number with
    | s0 :: s1 :: _ =>
        Item (s0 ++ "."
              ++ (if Nat.ltb 5 (String.length s1) then substring 0 5 s1
                  else s1))
    | _ => IndexError
    end.

(** A complex number is its real and imaginary parts. *)
Definition _handle_complex (number : pyfloat * pyfloat) : indexed string :=
  let splat0 := float_str (fst number) in
  let splat1 := float_str (SFabs (snd number)) in
  match _set_precision (PyStr splat0) with
  | IndexError => IndexError
  | Item a =>
      match _set_precision (PyStr splat1) with
      | IndexError => IndexError
      | Item b => Item (a ++ " +/- " ++ b ++ " j")
      end
  end.

End Format.

(** *** [update_logs]

    The log file is the text not read yet: [read()] returns it and leaves
    nothing unread; the logger appends to it.  A line of the console is the
    text of its [Tbody]. *)
Definition update_logs (console : option (list string)) (logfile : string)
  : option (list string) * string :=
  match console with
  | Some console => (Some (console ++ split newline logfile)%list, "")
  | None => (None, logfile)
  end.

(** The logger: one more line at the end of the file. *)
Definition log_line (line : string) (logfile : string) : string :=
  logfile ++ line ++ String newline "".

(** *** [update_tab_labels] *)
Definition update_tab_labels (setting : option Z) : callback (string * string) :=
  match setting with
  | None => PreventUpdate
  | Some s =>
      if s =? 1 then Returned ("Modes", "")
      else if s =? 2 then Returned ("Group 1", "Group 2")
      else if s =? 3 then Returned ("Reference", "Match")
      else ReturnsNone
  end.

(** *** [toggle_modal_general] and [toggle_modal_selection]

    [if n] holds for a click count that is neither [None] nor 0. *)
Definition truthy (n : option Z) : bool :=
  match n with
  | Some k => negb (k =? 0)
  | None => false
  end.

Definition toggle_modal_general (n : option Z) (is_open : bool) : bool :=
  if truthy n then negb is_open else is_open.

Definition toggle_modal_selection (n : option Z) (is_open : bool) : bool :=
  if truthy n then negb is_open else is_open.

(** *** [on_download_requested]

    The file dialog is a collaborator: from the default name and the filter
    to the path chosen, empty when the dialog is cancelled. *)
Record download : Type := mkDownload {
  mimeType : string;
  path : option string;
  accepted : bool
}.

Definition default_name (mime_type : string) : string * string :=
  if String.eqb mime_type "image/svg+xml" then ("nidmd-visualization", "svg")
  else if String.eqb mime_type "application/octet-stream"
  then ("nidmd-data", "csv")
  else ("some-error", "").

Definition on_download_requested (getSaveFileName : string -> string -> string)
  (dl : download) : download :=
  let '(filename, suffix) := default_name (mimeType dl) in
  let chosen :=
    getSaveFileName (String.concat "." [filename; suffix])
      (String.concat "." ["*"; suffix]) in
  match chosen with
  | EmptyString => dl
  | _ => mkDownload (mimeType dl) (Some chosen) true
  end.

(** *** [progress_file] and the figure callbacks *)

(** What a figure callback ends in: the renderer called with these
    arguments, [PreventUpdate], a failed [assert], or an exception. *)
Variant outcome (A : Type) : Type :=
| Renders (a : A)
| NoUpdate
| AssertionError
| Fails (e : exn).
Arguments Renders {A} a.
Arguments NoUpdate {A}.
Arguments AssertionError {A}.
Arguments Fails {A} e.

Section Figures.
Context {L : Collaborators}.

Definition progress_file (contents1 contents2 : option (list string))
  (setting : option Z) (d : Dashboard)
  : callback (run_dash.style * run_dash.style) :=
  match setting with
  | None => PreventUpdate
  | Some s =>
      if s =? 1 then
        Returned (if is_none (dcp1 d) then run_dash.show else run_dash.hide,
                  run_dash.hide)
      else if s =? 2 then
        Returned
          (if (is_none (dcp1 d) && negb (is_none contents1))%bool
           then run_dash.show else run_dash.hide,
           if (is_none (dcp2 d) && negb (is_none contents2))%bool
           then run_dash.show else run_dash.hide)
      else if s =? 3 then
        Returned
          (if (is_none (dcp1 d) && negb (is_none contents1))%bool
           then run_dash.show else run_dash.hide,
           if (is_none (match_df d) && negb (is_none contents2))%bool
           then run_dash.show else run_dash.hide)
      else Returned (run_dash.hide, run_dash.hide)
  end.

(** [.df] of a decomposition, and [==] on two [.atlas]. *)
Variable dcp_df : Decomposition -> DataFrame.
Variable atlas_eq : option Atlas -> option Atlas -> bool.

Definition no_df : exn :=
  AttributeError "'NoneType' object has no attribute 'df'".
Definition no_atlas : exn :=
  AttributeError "'NoneType' object has no attribute 'atlas'".

(** [self.dcpN.df if self.dcpN is not None else None] *)
Definition df_of (o : option Decomposition) : option DataFrame :=
  match o with
  | Some dcp => Some (dcp_df dcp)
  | None => None
  end.

Definition _filter_spectre (d : Dashboard)
  : result (DataFrame * list string * option DataFrame) :=
  match dcp2 d, match_group d, dcp1 d with
  | _, _, None => Raise no_df
  | Some g2, _, Some g1 =>
      Ok (dcp_df g1, ["Group 1"; "Group 2"], Some (dcp_df g2))
  | None, Some mg, Some g1 =>
      Ok (dcp_df g1, ["Reference"; "Match"], Some (dcp_df mg))
  | None, None, Some g1 => Ok (dcp_df g1, [""], None)
  end.

Definition _filter_time (d : Dashboard)
  : result (DataFrame * option DataFrame) :=
  match dcp1 d with
  | None => Raise no_df
  | Some g1 => Ok (dcp_df g1, df_of (dcp2 d))
  end.

(** With a second group, the two atlases are asserted equal first. *)
Definition _filter_radar (d : Dashboard)
  : outcome (DataFrame * option Atlas * option DataFrame) :=
  match dcp2 d, dcp1 d with
  | Some g2, None => Fails no_atlas
  | Some g2, Some g1 =>
      if atlas_eq (dcp_atlas g1) (dcp_atlas g2)
      then Renders (dcp_df g1, dcp_atlas g1, Some (dcp_df g2))
      else AssertionError
  | None, None => Fails no_df
  | None, Some g1 => Renders (dcp_df g1, dcp_atlas g1, None)
  end.

(** The two ways [compute_spectre] calls the renderer. *)
Variant spectre_call : Type :=
| Spectre_figure (df1 : DataFrame) (labels : list string)
    (df2 : option DataFrame)
| Spectre_correlation (approximated real : Series).

Definition compute_spectre (n : option Z) (d : Dashboard)
  : outcome spectre_call :=
  match n with
  | None => NoUpdate
  | Some _ =>
      if negb (valid d) then NoUpdate
      else
        match match_group d with
        | None =>
            match _filter_spectre d with
            | Ok (df1, labels, df2) => Renders (Spectre_figure df1 labels df2)
            | Raise e => Fails e
            end
        | Some _ =>
            match match_x d, match_y d with
            | Some x, Some y => Renders (Spectre_correlation x y)
            | _, _ => AssertionError
            end
        end
  end.

(** [nom + 1] *)
Definition succ_nom (nom : option Z) : result Z :=
  match nom with
  | Some k => Ok (k + 1)
  | None =>
      Raise (TypeError
        "unsupported operand type(s) for +: 'NoneType' and 'int'")
  end.

(** [TimePlot(df1, df2).figure(nom + 1)] *)
Definition compute_timeplot (n nom : option Z) (d : Dashboard)
  : outcome (DataFrame * option DataFrame * Z) :=
  match n with
  | None => NoUpdate
  | Some _ =>
      if negb (valid d) then NoUpdate
      else
        match _filter_time d with
        | Raise e => Fails e
        | Ok (df1, df2) =>
            match succ_nom nom with
            | Raise e => Fails e
            | Ok k => Renders (df1, df2, k)
            end
        end
  end.

(** [Radar(df1, atlas, df2).figure(self.imag, nom + 1)] *)
Definition compute_radar (n nom : option Z) (d : Dashboard)
  : outcome (DataFrame * option Atlas * option DataFrame * bool * Z) :=
  match n with
  | None => NoUpdate
  | Some _ =>
      if negb (valid d) then NoUpdate
      else
        match _filter_radar d with
        | Renders (df1, a, df2) =>
            match succ_nom nom with
            | Raise e => Fails e
            | Ok k => Renders (df1, a, df2, imag d, k)
            end
        | NoUpdate => NoUpdate
        | AssertionError => AssertionError
        | Fails e => Fails e
        end
  end.

End Figures.
End views.

(** Whether every click on Run in a list of events comes with a setting of
    the radio: none yet, Analysis, Comparison or Mode Matching. *)
Definition radio_settings {L : Collaborators} (es : list run_dash.event)
  : bool :=
  forallb
    (fun e =>
       match e with
       | run_dash.RunClicked _ (Some s) =>
           ((s =? 1) || (s =? 2) || (s =? 3))%bool
       | _ => true
       end)
    es.

(** Whether a reset is more than a [PreventUpdate]. *)
Definition resets {L : Collaborators} (e : run_dash.event) : bool :=
  match e with
  | run_dash.ResetClicked (Some _) => true
  | _ => false
  end.

(** [stable P m]: a store that satisfies [P] still does when [m] has
    returned or raised. *)
Definition stable {S A : Type} (P : S -> Prop) (m : M S A) : Prop :=
  forall s, P s -> P (snd (m s)).

(** The counts of the code over the degrees from [deg] on, checked in one
    pass: each is the floor or one less, and not below the one before. *)
Fixpoint counts_ok (n deg prev : Z) (l : list (result Z)) : bool :=
  match l with
  | [] => true
  | Ok v :: r =>
      ((prev <=? v) && (approxModeCount deg n - 1 <=? v)
       && (v <=? approxModeCount deg n)
       && counts_ok n (deg + 1) v r)%bool
  | Raise _ :: _ => false
  end.

Definition size_ok (n : Z) : bool :=
  (counts_ok n 0 0 (map (fun deg => no_modes deg n) degrees)
   && same_count (no_modes 0 n) 0
   && same_count (no_modes 100 n) n)%bool.

(** ** [utils.py]: the working directories

    A directory entry is a file or a directory with its entries.  [locked]
    says that the system refuses to remove the entry ([unlink] or [rmdir]
    raises [OSError]); [rmdir] also raises on a directory that is not
    empty.  Entries are plain files and directories, and every directory can
    be listed. *)
#[warnings="-register-all"]
Inductive node : Type :=
| File (locked : bool)
| Dir (locked : bool) (entries : list (string * node)).

Module utils.

(** One turn of the loop of [clear] on an entry: what is left of it, if
    anything, and the number of lines logged. *)
Fixpoint clear_entry (n : node) : option node * nat :=
  match n with
  | File locked => if locked then (Some n, 1%nat) else (None, O)
  | Dir locked entries =>
      let fix loop (l : list (string * node))
        : list (string * node) * nat :=
        match l with
        | [] => ([], O)
        | (name, c) :: r =>
            let '(c', k) := clear_entry c in
            let '(r', k') := loop r in
            (match c' with
             | Some x => (name, x) :: r'
             | None => r'
             end, (k + k')%nat)
        end in
      let '(rest, k) := loop entries in
      match rest, locked with
      | [], false => (None, k)
      | _, _ => (Some (Dir locked rest), S k)
      end
  end.

(** The loop of [clear] over the entries of a directory. *)
Fixpoint clear_entries (l : list (string * node))
  : list (string * node) * nat :=
  match l with
  | [] => ([], O)
  | (name, c) :: r =>
      let '(c', k) := clear_entry c in
      let '(r', k') := clear_entries r in
      (match c' with
       | Some x => (name, x) :: r'
       | None => r'
       end, (k + k')%nat)
  end.

(** [clear(directory)] on what is at the path, if anything: a directory is
    emptied as far as the system allows; a file, or nothing, is left
    alone. *)
Definition clear (at_path : option node) : option node * nat :=
  match at_path with
  | Some (Dir locked entries) =>
      let '(rest, k) := clear_entries entries in
      (Some (Dir locked rest), k)
  | other => (other, O)
  end.

(** The two working directories, [target] and [cache], under the root. *)
Record dirs : Type := mkDirs {
  target : option node;
  cache : option node
}.

Definition clear_target (fs : dirs) : dirs * nat :=
  let '(t, k) := clear (target fs) in (mkDirs t (cache fs), k).

Definition clear_cache (fs : dirs) : dirs * nat :=
  let '(c, k) := clear (cache fs) in (mkDirs (target fs) c, k).

(** [mkdir] of a path that does not exist. *)
Definition mkdir : option node := Some (Dir false []).

Definition reset_target (fs : dirs) : dirs * nat :=
  match target fs with
  | Some _ => clear_target fs
  | None => (mkDirs mkdir (cache fs), O)
  end.

(** Whether an entry of that name is listed. *)
Fixpoint listed (name : string) (l : list (string * node)) : bool :=
  match l with
  | [] => false
  | (k, _) :: r => (String.eqb k name || listed name r)%bool
  end.

(** The start of [main.py], up to the logger: the directories are made if
    missing and cleared, and [cache/log.log] is created if missing.  [None]
    is the exception of [open] when [cache] is a file. *)
Definition startup (fs : dirs) : option (dirs * nat) :=
  let fs1 := mkDirs (match target fs with None => mkdir | t => t end)
               (match cache fs with None => mkdir | c => c end) in
  let '(fs2, k1) := clear_target fs1 in
  let '(fs3, k2) := clear_cache fs2 in
  match cache fs3 with
  | Some (Dir locked entries) =>
      Some (mkDirs (target fs3)
              (Some (Dir locked
                       (if listed "log.log" entries then entries
                        else (entries ++ [("log.log", File false)])%list))),
            (k1 + k2)%nat)
  | _ => None
  end.

(** Whether the system refuses to remove something at or below an entry. *)
Fixpoint stuck (n : node) : bool :=
  match n with
  | File locked => locked
  | Dir locked entries =>
      (locked
       || (fix any (l : list (string * node)) : bool :=
             match l with
             | [] => false
             | (_, c) :: r => (stuck c || any r)%bool
             end) entries)%bool
  end.

Fixpoint any_stuck (l : list (string * node)) : bool :=
  match l with
  | [] => false
  | (_, c) :: r => (stuck c || any_stuck r)%bool
  end.

End utils.

(** What one turn of [clear] leaves of an entry, and what the loop leaves
    of a list of entries. *)
Definition entry_spec (n : node) : Prop :=
  match utils.clear_entry n with
  | (None, k) => utils.stuck n = false /\ k = O
  | (Some n', k) =>
      utils.stuck n = true /\ utils.stuck n' = true /\ (1 <= k)%nat
      /\ fst (utils.clear_entry n') = Some n'
  end.

Definition entries_spec (entries : list (string * node)) : Prop :=
  match utils.clear_entries entries with
  | (rest, k) =>
      (utils.any_stuck entries = false -> rest = [] /\ k = O)
      /\ (utils.any_stuck entries = true -> rest <> [] /\ (1 <= k)%nat)
      /\ Forall (fun e => utils.stuck (snd e) = true) rest
      /\ fst (utils.clear_entries rest) = rest
  end.

(** What is at a path once [main.py] has made the directory if missing. *)
Definition made (at_path : option node) : option node :=
  match at_path with
  | None => utils.mkdir
  | some => some
  end.

(** * Properties *)

(** ** The ingestor *)

Section Ingestor.
Context {L : Collaborators}.

(** The key loop returns the last qualifying entry seen, or what it started
    from. *)
Lemma pick_from (matfile : list (string * ndarray)) (d0 : option ndarray) :
  fold_left (fun d kv => if not_dunder (fst kv) then Some (snd kv) else d)
    matfile d0
  = match rev (qualifying matfile) with
    | [] => d0
    | kv :: _ => Some (snd kv)
    end.
Proof.
  revert d0.
  induction matfile as [|kv rest IH]; intro d0; simpl; [reflexivity|].
  rewrite IH. unfold qualifying. simpl.
  destruct (not_dunder (fst kv)); simpl; [|reflexivity].
  destruct (rev (filter _ rest)); reflexivity.
Qed.

Lemma pick_matrix_last matfile pre key v :
  qualifying matfile = (pre ++ [(key, v)])%list -> run_dash.pick_matrix matfile = Some v.
Proof.
  intro Hq. unfold run_dash.pick_matrix.
  rewrite pick_from, Hq, rev_app_distr. reflexivity.
Qed.

Lemma pick_matrix_none matfile :
  qualifying matfile = [] -> run_dash.pick_matrix matfile = None.
Proof.
  intro Hq. unfold run_dash.pick_matrix. rewrite pick_from, Hq. reflexivity.
Qed.

(** A batch of one file: what [_parse_files] does with the value the loop
    appended. *)
Lemma parse_files_single content name t d :
  run_dash._parse_files [content] (Some [name]) t d
  = match run_dash.parse_file content name with
    | Raise e => (Raise e, d)
    | Ok v =>
        match new_Decomposition [v] t with
        | Raise e => (Raise e, d)
        | Ok dcp => (Ok dcp, set_atlas (dcp_atlas dcp) d)
        end
    end.
Proof.
  unfold run_dash._parse_files, bind, lift, modify, ret. simpl.
  destruct (run_dash.parse_file content name) as [v|e]; simpl; [|reflexivity].
  destruct (new_Decomposition [v] t); reflexivity.
Qed.

(** C1.  A [.mat] upload yields the matrix stored under the last key that
    does not begin with the double underscore, in key iteration order, and
    that matrix is what the decomposition is built from; with no such key
    the parse raises [NoMatrixFound] and the dashboard object is left as it
    was. *)
Theorem parse_mat_last_qualifying
  (content name meta payload : string) (raw : bytes)
  (matfile : list (string * ndarray)) :
  suffix name = ".mat" ->
  split_comma content = [meta; payload] ->
  b64decode payload = Ok raw ->
  loadmat raw = Ok matfile ->
  (forall pre key v, qualifying matfile = (pre ++ [(key, v)])%list ->
     run_dash.parse_file content name = Ok (Some v)
     /\ forall t d,
          run_dash._parse_files [content] (Some [name]) t d
          = match new_Decomposition [Some v] t with
            | Raise e => (Raise e, d)
            | Ok dcp => (Ok dcp, set_atlas (dcp_atlas dcp) d)
            end)
  /\ (qualifying matfile = [] ->
        run_dash.parse_file content name = Raise NoMatrixFound
        /\ forall t d,
             run_dash._parse_files [content] (Some [name]) t d
             = (Raise NoMatrixFound, d)).
Proof.
  intros Hsuf Hsplit Hdec Hload.
  assert (Hfile : run_dash.parse_file content name
                  = match run_dash.pick_matrix matfile with
                    | None => Raise NoMatrixFound
                    | Some v => Ok (Some v)
                    end).
  { unfold run_dash.parse_file, run_dash.read_mat.
    rewrite Hsuf, Hsplit. simpl. rewrite Hdec. simpl. rewrite Hload.
    reflexivity. }
  split.
  - intros pre key v Hq.
    rewrite (pick_matrix_last _ _ _ _ Hq) in Hfile.
    split; [exact Hfile|].
    intros t d. rewrite parse_files_single, Hfile. reflexivity.
  - intro Hq. rewrite (pick_matrix_none _ Hq) in Hfile.
    split; [exact Hfile|].
    intros t d. rewrite parse_files_single, Hfile. reflexivity.
Qed.

End Ingestor.

(** The container of [Sample.mat_xy] holds [X] then [Y] between two
    double-underscore entries: [Y] is extracted.  That of [Sample.mat_meta]
    holds none: [NoMatrixFound]. *)
Lemma parse_mat_last_qualifying_witness :
  run_dash.parse_file (L := Sample.lib) Sample.mat_xy "scan.mat"
  = Ok (Some [[Some 3; Some 4]])
  /\ run_dash.parse_file (L := Sample.lib) Sample.mat_meta "scan.mat"
     = Raise NoMatrixFound.
Proof.
  split.
  - refine (proj1 (proj1 (parse_mat_last_qualifying (L := Sample.lib)
      Sample.mat_xy "scan.mat" "data:application/octet-stream;base64"
      "X19oZWFkZXJfXz0wO1g9MSwyO1k9Myw0O19fZ2xvYmFsc19fPTA="
      "__header__=0;X=1,2;Y=3,4;__globals__=0"
      (Sample.container "__header__=0;X=1,2;Y=3,4;__globals__=0")
      eq_refl eq_refl eq_refl eq_refl)
      [("X", [[Some 1; Some 2]])] "Y" [[Some 3; Some 4]] eq_refl)).
  - refine (proj1 (proj2 (parse_mat_last_qualifying (L := Sample.lib)
      Sample.mat_meta "scan.mat" "data:application/octet-stream;base64"
      "X19oZWFkZXJfXz0wO19fdmVyc2lvbl9fPTE="
      "__header__=0;__version__=1"
      (Sample.container "__header__=0;__version__=1")
      eq_refl eq_refl eq_refl eq_refl) eq_refl)).
Defined.

(** ** The content descriptor *)

Lemma split_comma_length (s : string) :
  List.length (split_comma s) = S (count_commas s).
Proof.
  induction s as [|c r IH]; simpl; [reflexivity|].
  destruct (Ascii.eqb c ","); simpl; [now rewrite IH|].
  destruct (split_comma r); simpl in *; [discriminate|exact IH].
Qed.

Lemma split_comma_no_comma (s : string) :
  count_commas s = O -> split_comma s = [s].
Proof.
  induction s as [|c r IH]; simpl; [reflexivity|].
  destruct (Ascii.eqb c ","); [discriminate|].
  intro H. rewrite (IH H). reflexivity.
Qed.

Lemma split_comma_first (s : string) :
  match split_first_comma s with
  | Some (a, r) =>
      split_comma s = a :: split_comma r /\ count_commas s = S (count_commas r)
  | None => count_commas s = O
  end.
Proof.
  induction s as [|c r IH]; simpl; [reflexivity|].
  destruct (Ascii.eqb c ","); [split; reflexivity|].
  destruct (split_first_comma r) as [[a b]|]; [|exact IH].
  destruct IH as [IH1 IH2]. rewrite IH1. split; [reflexivity|exact IH2].
Qed.

Section Descriptor.
Context {L : Collaborators}.

(** The two branches of [parse_file] share the split and the unpacking. *)
Lemma parse_file_split (content name : string) :
  run_dash.parse_file content name
  = if String.eqb (suffix name) ".mat"
    then rbind (unpack2 (split_comma content)) run_dash.read_mat
    else if String.eqb (suffix name) ".csv"
    then rbind (unpack2 (split_comma content)) run_dash.read_csv
    else Ok None.
Proof. reflexivity. Qed.

(** C8, as the code has it.  A descriptor with exactly one comma is split
    there, and the text after it is what is base64-decoded, for a [.mat] and
    for a [.csv] file alike.  A descriptor with no comma, or with more than
    one, does not unpack into two parts: [ValueError], for both kinds of
    file, before anything is decoded. *)
Theorem descriptor_one_comma (content name : string) :
  (count_commas content = 1%nat ->
     exists meta rest,
       split_first_comma content = Some (meta, rest)
       /\ unpack2 (split_comma content) = Ok rest
       /\ (suffix name = ".mat" ->
             run_dash.parse_file content name = run_dash.read_mat rest)
       /\ (suffix name = ".csv" ->
             run_dash.parse_file content name = run_dash.read_csv rest))
  /\ (count_commas content <> 1%nat ->
        exists msg,
          unpack2 (split_comma content) = Raise (ValueError msg)
          /\ (suffix name = ".mat" \/ suffix name = ".csv" ->
                run_dash.parse_file content name = Raise (ValueError msg))).
Proof.
  split.
  - intro Hone.
    pose proof (split_comma_first content) as Hf.
    destruct (split_first_comma content) as [[meta rest]|];
      [|rewrite Hf in Hone; discriminate].
    destruct Hf as [Hs Hc]. rewrite Hc in Hone.
    assert (Hr : split_comma rest = [rest])
      by (apply split_comma_no_comma; congruence).
    assert (Hu : unpack2 (split_comma content) = Ok rest)
      by (rewrite Hs, Hr; reflexivity).
    exists meta, rest. repeat split; [exact Hu| |];
      intro Hsuf; rewrite parse_file_split, Hsuf, Hu; reflexivity.
  - intro Hne.
    pose proof (split_comma_length content) as Hlen.
    assert (Hu : exists msg,
               unpack2 (split_comma content) = Raise (ValueError msg)).
    { destruct (split_comma content) as [|a [|b [|c l]]]; simpl in *.
      - eexists; reflexivity.
      - eexists; reflexivity.
      - exfalso. apply Hne. congruence.
      - eexists; reflexivity. }
    destruct Hu as [msg Hu]. exists msg. split; [exact Hu|].
    intros [Hsuf|Hsuf]; rewrite parse_file_split, Hsuf, Hu; reflexivity.
Qed.

(** C5, as the code has it.  For a [.csv] upload whose descriptor unpacks
    and whose bytes decode, the outcome follows the table reader: an array,
    whatever it holds, is taken as the matrix; [MalformedCsv] is raised when
    the reader returns [None], and only then; an exception of the reader is
    passed on. *)
Theorem parse_csv_outcome
  (content name meta payload : string) (raw : bytes) (text : string) :
  suffix name = ".csv" ->
  split_comma content = [meta; payload] ->
  b64decode payload = Ok raw ->
  decode_utf8 raw = Ok text ->
  run_dash.parse_file content name
  = match genfromtxt text with
    | Ok (Some a) => Ok (Some a)
    | Ok None => Raise MalformedCsv
    | Raise e => Raise e
    end.
Proof.
  intros Hsuf Hsplit Hdec Hutf.
  rewrite parse_file_split, Hsuf, Hsplit. simpl.
  unfold run_dash.read_csv. rewrite Hdec. simpl. rewrite Hutf. simpl.
  destruct (genfromtxt text) as [[a|]|e]; reflexivity.
Qed.

End Descriptor.

(** One comma: the payload is decoded.  Two commas: [ValueError]. *)
Lemma descriptor_one_comma_witness :
  run_dash.parse_file (L := Sample.lib) Sample.csv_b "b.csv"
  = run_dash.read_csv "NSw2Cg=="
  /\ exists msg,
       run_dash.parse_file (L := Sample.lib)
         "data:text/csv;base64,MSwy,Cg==" "a.csv"
       = Raise (ValueError msg).
Proof.
  split.
  - destruct (proj1 (descriptor_one_comma (L := Sample.lib)
                       Sample.csv_b "b.csv") eq_refl)
      as (meta & rest & Hf & _ & _ & Hcsv).
    injection Hf as _ <-. exact (Hcsv eq_refl).
  - destruct (proj2 (descriptor_one_comma (L := Sample.lib)
                       "data:text/csv;base64,MSwy,Cg==" "a.csv"))
      as (msg & _ & Hp).
    + discriminate.
    + exists msg. apply Hp. right. reflexivity.
Defined.

(** C8 does not hold as written: the remainder after the first comma of
    this descriptor decodes to a table, but the upload raises. *)
Lemma descriptor_two_commas_rejected :
  ~ (forall content meta rest,
       split_first_comma content = Some (meta, rest) ->
       run_dash.parse_file (L := Sample.lib) content "a.csv"
       = run_dash.read_csv rest).
Proof.
  intro H.
  specialize (H "data:text/csv;base64,MSwy,Cg==" "data:text/csv;base64"
                "MSwy,Cg==" eq_refl).
  vm_compute in H. discriminate H.
Qed.

(** The empty [.csv] upload: the reader returns an empty array, and the
    empty array is taken as the matrix. *)
Lemma parse_csv_outcome_witness :
  run_dash.parse_file (L := Sample.lib) Sample.csv_empty "empty.csv"
  = Ok (Some []).
Proof.
  exact (parse_csv_outcome (L := Sample.lib) Sample.csv_empty "empty.csv"
           "data:text/csv;base64" "" "" "" eq_refl eq_refl eq_refl eq_refl).
Defined.

(** ** What a computation leaves alone *)

Section Keeps.
Context {S X : Type} (f : S -> X).

Lemma keeps_ret {A} (a : A) : keeps f (ret a).
Proof. intro s. reflexivity. Qed.

Lemma keeps_raise {A} (e : exn) : keeps f (raise (A := A) e).
Proof. intro s. reflexivity. Qed.

Lemma keeps_lift {A} (r : result A) : keeps f (lift r).
Proof. intro s. reflexivity. Qed.

Lemma keeps_gets {A} (g : S -> A) : keeps f (gets g).
Proof. intro s. reflexivity. Qed.

Lemma keeps_modify (g : S -> S) :
  (forall s, f (g s) = f s) -> keeps f (modify g).
Proof. intros H s. apply H. Qed.

Lemma keeps_bind {A B} (m : M S A) (k : A -> M S B) :
  keeps f m -> (forall a, keeps f (k a)) -> keeps f (bind m k).
Proof.
  intros Hm Hk s. unfold bind.
  specialize (Hm s). destruct (m s) as [[a|e] s']; simpl in *.
  - rewrite Hk. exact Hm.
  - exact Hm.
Qed.

Lemma keeps_if {A} (b : bool) (m1 m2 : M S A) :
  keeps f m1 -> keeps f m2 -> keeps f (if b then m1 else m2).
Proof. destruct b; auto. Qed.

End Keeps.

Lemma bind_ok {S A B} (m : M S A) (k : A -> M S B) (s s' : S) (a : A) :
  m s = (Ok a, s') -> bind m k s = k a s'.
Proof. intro H. unfold bind. rewrite H. reflexivity. Qed.

Section Frames.
Context {L : Collaborators}.

Lemma keeps_on_self {A X} (g : Dashboard -> X) (m : M Dashboard A) :
  keeps g m -> keeps (fun fr => g (run_dash.self fr)) (run_dash.on_self m).
Proof.
  intros H fr. unfold run_dash.on_self.
  specialize (H (run_dash.self fr)).
  destruct (m (run_dash.self fr)) as [r s]. exact H.
Qed.

(** [_parse_files] assigns [self.atlas] and nothing else. *)
Lemma parse_files_keeps {X} (g : Dashboard -> X) contents files t :
  (forall a d, g (set_atlas a d) = g d) ->
  keeps g (run_dash._parse_files contents files t).
Proof.
  intro Hg. unfold run_dash._parse_files.
  destruct files as [files|]; [|apply keeps_raise].
  repeat (apply keeps_bind; [|intro]);
    auto using keeps_lift, keeps_ret, keeps_modify.
Qed.

Lemma parse_files_result contents files t d r d' :
  run_dash._parse_files contents files t d = (r, d') ->
  match r with
  | Ok dcp => d' = set_atlas (dcp_atlas dcp) d
  | Raise _ => d' = d
  end.
Proof.
  unfold run_dash._parse_files, bind, lift, modify, ret, raise.
  destruct files as [files|]; [|intro H; inversion H; reflexivity].
  destruct (run_dash.parse_loop _ _) as [data|e];
    [|intro H; inversion H; reflexivity].
  destruct (new_Decomposition data t) as [dcp|e];
    intro H; inversion H; reflexivity.
Qed.

End Frames.

(** ** The upload callback *)

Section Upload.
Context {L : Collaborators}.

(** Outside [PreventUpdate], the callback returns what the [try] left. *)
Lemma upload_eq c1 c2 time n1 n2 setting approx_deg d :
  (is_none c1 && is_none c2 && is_none n1 && is_none n2)%bool = false ->
  run_dash.upload c1 c2 time n1 n2 setting approx_deg d
  = let rf := run_dash.upload_try c1 c2 time n1 n2 setting approx_deg
                (run_dash.mkFrame d None None true) in
    Some (run_dash.mkUploadOutputs
            (run_dash.tab1 (snd rf)) (run_dash.tab2 (snd rf))
            (run_dash.disabled (snd rf))
            (negb (is_none c1)) (negb (is_none c2))
            (match fst rf with Ok _ => "" | Raise e => str e end)
            (match fst rf with Ok _ => false | Raise _ => true end),
          run_dash.self (snd rf)).
Proof.
  intro H. unfold run_dash.upload. rewrite H.
  destruct (run_dash.upload_try _ _ _ _ _ _ _ _) as [[u|e] fr]; reflexivity.
Qed.

Lemma group1_parsed_keeps {X} (g : Dashboard -> X) dcp :
  (forall v d, g (set_dcp1 v d) = g d) ->
  keeps (fun fr => g (run_dash.self fr)) (run_dash.group1_parsed dcp).
Proof.
  intro H1. unfold run_dash.group1_parsed.
  repeat (apply keeps_bind; [|intro]);
    first [ apply keeps_lift
          | apply keeps_on_self; apply keeps_modify; apply H1
          | apply keeps_modify; intro; reflexivity ].
Qed.

Lemma comparison_parsed_keeps {X} (g : Dashboard -> X) dcp :
  (forall v d, g (set_dcp2 v d) = g d) ->
  keeps (fun fr => g (run_dash.self fr)) (run_dash.comparison_parsed dcp).
Proof.
  intro H2. unfold run_dash.comparison_parsed.
  repeat (apply keeps_bind; [|intro]);
    first [ apply keeps_lift
          | apply keeps_on_self; apply keeps_modify; apply H2
          | apply keeps_modify; intro; reflexivity ].
Qed.

Lemma match_parsed_keeps {X} (g : Dashboard -> X) mg approx_deg :
  (forall v d, g (set_match_group v d) = g d) ->
  (forall df x y d, g (set_match df x y d) = g d) ->
  keeps (fun fr => g (run_dash.self fr)) (run_dash.match_parsed mg approx_deg).
Proof.
  intros Hg Hm. unfold run_dash.match_parsed.
  repeat (apply keeps_bind; [|intro]);
    try first [ apply keeps_lift
              | apply keeps_gets
              | apply keeps_on_self; apply keeps_modify; apply Hg ].
  match goal with |- keeps _ (match ?r with _ => _ end) => destruct r end;
    [|apply keeps_raise].
  repeat (apply keeps_bind; [|intro]);
    first [ apply keeps_lift
          | apply keeps_on_self; apply keeps_modify; intro; apply Hm
          | apply keeps_modify; intro; reflexivity ].
Qed.

Lemma group1_keeps {X} (g : Dashboard -> X) c1 time n1 :
  (forall a d, g (set_atlas a d) = g d) ->
  (forall v d, g (set_dcp1 v d) = g d) ->
  keeps (fun fr => g (run_dash.self fr)) (run_dash.upload_group1 c1 time n1).
Proof.
  intros Ha H1. unfold run_dash.upload_group1.
  destruct c1 as [c1|]; [|apply keeps_ret].
  apply keeps_bind; [apply keeps_lift|intro t].
  apply keeps_bind; [|intro dcp; apply group1_parsed_keeps; exact H1].
  apply keeps_on_self, parse_files_keeps, Ha.
Qed.

Lemma comparison_keeps {X} (g : Dashboard -> X) c2 time n2 :
  (forall a d, g (set_atlas a d) = g d) ->
  (forall v d, g (set_dcp2 v d) = g d) ->
  keeps (fun fr => g (run_dash.self fr)) (run_dash.upload_comparison c2 time n2).
Proof.
  intros Ha H2. unfold run_dash.upload_comparison.
  apply keeps_bind; [apply keeps_lift|intro t].
  apply keeps_bind; [|intro dcp; apply comparison_parsed_keeps; exact H2].
  apply keeps_on_self, parse_files_keeps, Ha.
Qed.

Lemma match_keeps {X} (g : Dashboard -> X) c2 time n2 approx_deg :
  (forall a d, g (set_atlas a d) = g d) ->
  (forall v d, g (set_match_group v d) = g d) ->
  (forall df x y d, g (set_match df x y d) = g d) ->
  keeps (fun fr => g (run_dash.self fr))
    (run_dash.upload_match c2 time n2 approx_deg).
Proof.
  intros Ha Hg Hm. unfold run_dash.upload_match.
  apply keeps_bind; [apply keeps_lift|intro t].
  apply keeps_bind; [|intro mg; apply match_parsed_keeps; assumption].
  apply keeps_on_self, parse_files_keeps, Ha.
Qed.

(** The second slot under a setting other than Comparison leaves [dcp2], and
    under a setting other than Mode Matching leaves the match result. *)
Lemma group2_keeps_dcp2 c2 time n2 setting approx_deg :
  run_dash.setting_is 2 setting = false ->
  keeps (fun fr => dcp2 (run_dash.self fr))
    (run_dash.upload_group2 c2 time n2 setting approx_deg).
Proof.
  intro Hs. unfold run_dash.upload_group2. rewrite Hs.
  apply keeps_if; [apply keeps_ret|].
  apply keeps_bind; [apply keeps_gets|intro s].
  destruct c2 as [c2|]; [|apply keeps_ret].
  apply keeps_if; [|apply keeps_ret].
  apply keeps_bind; [apply keeps_ret|intros _].
  apply keeps_if; [|apply keeps_ret].
  apply (match_keeps dcp2); reflexivity.
Qed.

Lemma group2_keeps_match_df c2 time n2 setting approx_deg :
  run_dash.setting_is 3 setting = false ->
  keeps (fun fr => match_df (run_dash.self fr))
    (run_dash.upload_group2 c2 time n2 setting approx_deg).
Proof.
  intro Hs. unfold run_dash.upload_group2. rewrite Hs.
  apply keeps_if; [apply keeps_ret|].
  apply keeps_bind; [apply keeps_gets|intro s].
  destruct c2 as [c2|]; [|apply keeps_ret].
  apply keeps_if; [|apply keeps_ret].
  apply keeps_bind; [|intros _; apply keeps_ret].
  apply keeps_if; [|apply keeps_ret].
  apply (comparison_keeps match_df); reflexivity.
Qed.

Lemma upload_keeps {X} (g : Dashboard -> X)
  c1 c2 time n1 n2 setting approx_deg d :
  keeps (fun fr => g (run_dash.self fr))
    (run_dash.upload_try c1 c2 time n1 n2 setting approx_deg) ->
  match run_dash.upload c1 c2 time n1 n2 setting approx_deg d with
  | Some (_, d') => g d' = g d
  | None => True
  end.
Proof.
  intro Hk. unfold run_dash.upload.
  destruct (_ && _)%bool; [exact I|].
  specialize (Hk (run_dash.mkFrame d None None true)).
  destruct (run_dash.upload_try _ _ _ _ _ _ _ _) as [[u|e] fr]; exact Hk.
Qed.

End Upload.

(** Tests on literal settings. *)
Ltac eval_tests :=
  repeat match goal with
  | |- context [Z.eqb ?a ?b] =>
      let v := eval vm_compute in (Z.eqb a b) in
      change (Z.eqb a b) with v
  end; cbv iota.

Section Slot2.
Context {L : Collaborators}.

Lemma snd_bind_ret {S A} (m : M S A) (s : S) :
  snd (bind m (fun _ => ret tt) s) = snd (m s).
Proof. unfold bind. destruct (m s) as [[a|e] s']; reflexivity. Qed.

(** Past [float(time)] and a parse that returned. *)
Lemma parsed_then {A} (k : Decomposition -> M run_dash.Frame A)
  contents files t fr dcp d' :
  run_dash._parse_files contents files t (run_dash.self fr) = (Ok dcp, d') ->
  bind (lift (run_dash.float_ (Some t)))
    (fun t => bind (run_dash.on_self (run_dash._parse_files contents files t)) k)
    fr
  = k dcp (run_dash.mkFrame d' (run_dash.tab1 fr) (run_dash.tab2 fr)
             (run_dash.disabled fr)).
Proof.
  intro Hp. unfold bind at 1. simpl.
  apply bind_ok. unfold run_dash.on_self. rewrite Hp. reflexivity.
Qed.

Lemma slot2_atlas contents files t approx_deg setting fr dcp d' :
  setting = Some 2 \/ setting = Some 3 ->
  dcp2 (run_dash.self fr) = None \/ match_group (run_dash.self fr) = None ->
  run_dash._parse_files contents files t (run_dash.self fr) = (Ok dcp, d') ->
  atlas (run_dash.self (snd
    (run_dash.upload_group2 (Some contents) (Some t) files setting approx_deg fr)))
  = dcp_atlas dcp.
Proof.
  intros Hs Hg Hp.
  assert (Hguard : (is_none (dcp2 (run_dash.self fr))
                    || is_none (match_group (run_dash.self fr)))%bool = true).
  { destruct Hg as [-> | ->]; [reflexivity|apply orb_true_r]. }
  pose proof (parse_files_result _ _ _ _ _ _ Hp) as Hd'. simpl in Hd'.
  unfold run_dash.upload_group2.
  destruct Hs as [-> | ->]; unfold run_dash.setting_is; eval_tests.
  - rewrite (bind_ok _ _ fr fr (run_dash.self fr)) by reflexivity.
    rewrite Hguard. rewrite snd_bind_ret.
    unfold run_dash.upload_comparison. rewrite (parsed_then _ _ _ _ _ _ _ Hp).
    rewrite (comparison_parsed_keeps atlas) by reflexivity.
    simpl. rewrite Hd'. reflexivity.
  - rewrite (bind_ok _ _ fr fr (run_dash.self fr)) by reflexivity.
    rewrite Hguard.
    rewrite (bind_ok _ _ fr fr tt) by reflexivity.
    unfold run_dash.upload_match. rewrite (parsed_then _ _ _ _ _ _ _ Hp).
    rewrite (match_parsed_keeps atlas) by reflexivity.
    simpl. rewrite Hd'. reflexivity.
Qed.

(** C10.  A parse that returns leaves the dashboard object as it was but for
    [atlas], which is now the atlas of the decomposition just built.  So
    when an upload under Comparison or Mode Matching gets past the first
    slot and the parse of the second slot returns, then whatever the run,
    the tables and the match do next, [atlas] ends as the atlas of the
    second group's decomposition. *)
Theorem parse_overwrites_atlas
  (contents : list string) (files : option (list string)) (t : pyfloat)
  (d d' : Dashboard) (dcp : Decomposition) :
  run_dash._parse_files contents files t d = (Ok dcp, d') ->
  d' = set_atlas (dcp_atlas dcp) d
  /\ forall contents1 names1 setting approx_deg d0 t1 t2 dis,
       run_dash.upload_group1 contents1 (Some t) names1
         (run_dash.mkFrame d0 None None true)
       = (Ok tt, run_dash.mkFrame d t1 t2 dis) ->
       setting = Some 2 \/ setting = Some 3 ->
       dcp2 d = None \/ match_group d = None ->
       exists out dfin,
         run_dash.upload contents1 (Some contents) (Some t) names1 files
           setting approx_deg d0 = Some (out, dfin)
         /\ atlas dfin = dcp_atlas dcp.
Proof.
  intro Hp. split.
  - exact (parse_files_result _ _ _ _ _ _ Hp).
  - intros contents1 names1 setting approx_deg d0 t1 t2 dis H1 Hs Hg.
    rewrite upload_eq by (destruct contents1; reflexivity). cbv zeta.
    eexists. eexists. split; [reflexivity|].
    unfold run_dash.upload_try. rewrite (bind_ok _ _ _ _ _ H1).
    apply (slot2_atlas contents files t approx_deg setting
             (run_dash.mkFrame d t1 t2 dis) dcp d' Hs Hg Hp).
Qed.

(** C2, as the code has it.  With no reference loaded, a Mode Matching upload
    on the second slot whose files parse and run shows the message of
    [MissingReference] and no second table, but by then the new group has
    been stored in [match_group], over whatever was there, and its atlas in
    [atlas]. *)
Theorem match_upload_before_reference
  (c2 : list string) (names1 names2 : option (list string)) (t : pyfloat)
  (approx_deg : option Z) (d d1 : Dashboard) (mg mg' : Decomposition) :
  dcp1 d = None ->
  dcp2 d = None \/ match_group d = None ->
  run_dash._parse_files c2 names2 t d = (Ok mg, d1) ->
  dcp_run mg = Ok mg' ->
  exists out,
    run_dash.upload None (Some c2) (Some t) names1 names2 (Some 3) approx_deg d
    = Some (out, set_match_group (Some mg') (set_atlas (dcp_atlas mg) d))
    /\ run_dash.out_message out = str MissingReference
    /\ run_dash.out_error out = true
    /\ run_dash.out_tab2 out = None.
Proof.
  intros H1 H2 Hp Hr.
  pose proof (parse_files_result _ _ _ _ _ _ Hp) as Hd1. simpl in Hd1. subst d1.
  assert (Hguard : (is_none (dcp2 d) || is_none (match_group d))%bool = true)
    by (destruct H2 as [-> | ->]; [reflexivity|apply orb_true_r]).
  assert (Hb :
    run_dash.upload_try None (Some c2) (Some t) names1 names2 (Some 3)
      approx_deg (run_dash.mkFrame d None None true)
    = (Raise MissingReference,
       run_dash.mkFrame
         (set_match_group (Some mg') (set_atlas (dcp_atlas mg) d))
         None None true)).
  { unfold run_dash.upload_try, run_dash.upload_group1, run_dash.upload_group2,
      run_dash.upload_match, run_dash.match_parsed,
      bind, lift, gets, modify, ret, raise, run_dash.on_self.
    simpl. rewrite Hguard. simpl. rewrite Hp. simpl. rewrite Hr. simpl.
    rewrite H1. reflexivity. }
  rewrite upload_eq by reflexivity. cbv zeta. rewrite Hb. simpl.
  eexists. split; [reflexivity|]. simpl. auto.
Qed.

End Slot2.

(** A first group of two columns and a second group of three, uploaded
    together under Comparison: [atlas] is the second group's. *)
Lemma parse_overwrites_atlas_witness :
  exists out dfin,
    run_dash.upload (L := Sample.lib) (Some [Sample.csv_a])
      (Some [Sample.csv_c]) (Some Sample.t072) (Some ["a.csv"])
      (Some ["c.csv"]) (Some 2) (Some 5) init = Some (out, dfin)
    /\ atlas dfin = Some 3.
Proof.
  exact (proj2 (parse_overwrites_atlas (L := Sample.lib) [Sample.csv_c]
                  (Some ["c.csv"]) Sample.t072 Sample.group1_loaded _ _ eq_refl)
           (Some [Sample.csv_a]) (Some ["a.csv"]) (Some 2) (Some 5) init
           (Some "modes") None true eq_refl
           (or_introl eq_refl) (or_introl eq_refl)).
Defined.

(** From the initial state: the message is shown, and [match_group] holds
    the group that was refused. *)
Lemma match_upload_before_reference_witness :
  exists out d',
    run_dash.upload (L := Sample.lib) None (Some [Sample.csv_a])
      (Some Sample.t072) None (Some ["m.csv"]) (Some 3) (Some 5) init
    = Some (out, d')
    /\ run_dash.out_message out
       = "Please upload Reference group before Match group."
    /\ is_none (match_group d') = false
    /\ is_none (match_x d') = true
    /\ run_dash.spectre_asserts d' = false.
Proof.
  destruct (match_upload_before_reference (L := Sample.lib) [Sample.csv_a]
              None (Some ["m.csv"]) Sample.t072 (Some 5) init _ _ _
              eq_refl (or_introl eq_refl) eq_refl eq_refl)
    as (out & Hu & Hm & _).
  exists out. eexists. split; [exact Hu|].
  split; [exact Hm|]. repeat split.
Defined.

(** ** Comparison and match result across events *)

Section Exclusive.
Context {L : Collaborators}.

Lemma validate_state n setting d msg err d' :
  run_dash.validate n setting d = Some (msg, err, d') ->
  d' = d \/ d' = set_valid true d.
Proof.
  unfold run_dash.validate. destruct n; [|discriminate].
  destruct (run_dash.validate_checks setting d) as [m [|]];
    intro H; inversion H; auto.
Qed.

(** An event other than an upload under Comparison leaves an absent [dcp2]
    absent. *)
Lemma handle_keeps_dcp2 (e : run_dash.event) (d : Dashboard) :
  run_dash.uploads_under 2 e = false ->
  dcp2 d = None -> dcp2 (run_dash.handle e d) = None.
Proof.
  intros He Hd. destruct e as [v|c1 c2 t n1 n2 s a|n s|n|sw|]; simpl;
    try exact Hd.
  - simpl in He.
    pose proof (upload_keeps dcp2 c1 c2 t n1 n2 s a d) as H.
    destruct (run_dash.upload c1 c2 t n1 n2 s a d) as [[out d']|];
      [|exact Hd].
    rewrite H; [exact Hd|]. unfold run_dash.upload_try.
    apply keeps_bind; [apply (group1_keeps dcp2); reflexivity|intros _].
    apply group2_keeps_dcp2, He.
  - destruct (run_dash.validate n s d) as [[[msg err] d']|] eqn:Hv;
      [|exact Hd].
    destruct (validate_state _ _ _ _ _ _ Hv) as [-> | ->]; exact Hd.
  - destruct n; [reflexivity|exact Hd].
Qed.

(** An event other than an upload under Mode Matching leaves an absent
    match result absent. *)
Lemma handle_keeps_match_df (e : run_dash.event) (d : Dashboard) :
  run_dash.uploads_under 3 e = false ->
  match_df d = None -> match_df (run_dash.handle e d) = None.
Proof.
  intros He Hd. destruct e as [v|c1 c2 t n1 n2 s a|n s|n|sw|]; simpl;
    try exact Hd.
  - simpl in He.
    pose proof (upload_keeps match_df c1 c2 t n1 n2 s a d) as H.
    destruct (run_dash.upload c1 c2 t n1 n2 s a d) as [[out d']|];
      [|exact Hd].
    rewrite H; [exact Hd|]. unfold run_dash.upload_try.
    apply keeps_bind; [apply (group1_keeps match_df); reflexivity|intros _].
    apply group2_keeps_match_df, He.
  - destruct (run_dash.validate n s d) as [[[msg err] d']|] eqn:Hv;
      [|exact Hd].
    destruct (validate_state _ _ _ _ _ _ Hv) as [-> | ->]; exact Hd.
  - destruct n; [reflexivity|exact Hd].
Qed.

Lemma handle_all_keeps (k : Z) (g : Dashboard -> Prop) (es : list run_dash.event) :
  (forall e d, run_dash.uploads_under k e = false ->
               g d -> g (run_dash.handle e d)) ->
  forall d,
    forallb (fun e => negb (run_dash.uploads_under k e)) es = true ->
    g d -> g (run_dash.handle_all es d).
Proof.
  intro Hstep. unfold run_dash.handle_all.
  induction es as [|e es IH]; intros d Hes Hd; simpl; [exact Hd|].
  simpl in Hes. apply andb_true_iff in Hes. destruct Hes as [He Hes].
  apply IH; [exact Hes|].
  apply Hstep; [|exact Hd].
  destruct (run_dash.uploads_under k e); [discriminate|reflexivity].
Qed.


End Exclusive.



(** ** The approximation degree *)

(** C4, as the code has it.  The count is computed in binary64: the degree
    is divided by 100.0, the quotient is multiplied by the size, and the
    product is truncated.  For the atlas of 400 regions and the degree 29
    the product is just under 116 and the count is 115, one less than the
    floor of the exact product; over the degrees 0 to 100 this happens at
    29, 57 and 58 for 400 regions and at 35 and 70 for 360.  At these two
    sizes the count is 0 at degree 0, the size at degree 100, and never
    decreases with the degree. *)
Theorem no_modes_below_floor :
  no_modes 29 400 = Ok 115
  /\ approxModeCount 29 400 = 116
  /\ off_floor 400 = [29; 57; 58]
  /\ off_floor 360 = [35; 70]
  /\ no_modes 0 400 = Ok 0 /\ no_modes 100 400 = Ok 400
  /\ no_modes 0 360 = Ok 0 /\ no_modes 100 360 = Ok 360
  /\ nondecreasing 400 = true /\ nondecreasing 360 = true.
Proof. vm_compute. repeat split. Qed.

(** ** The progress bar *)

Section Progress.
Context {L : Collaborators}.

Lemma displayed_range (p : Z) : 0 <= displayed p <= 100.
Proof.
  unfold displayed.
  pose proof (Z.mod_pos_bound p 110 ltac:(lia)). lia.
Qed.


End Progress.


(** ** The validation callback *)

Section Validate.
Context {L : Collaborators}.

(** The setting, by cases on the three tests of [validate]. *)
Ltac by_setting s :=
  destruct (Z.eqb_spec s 1) as [->|?];
    [|destruct (Z.eqb_spec s 2) as [->|?];
        [|destruct (Z.eqb_spec s 3) as [->|?]]].


(** C9.  Under each of the three settings of the radio, the checks of
    [validate] do not read [atlas]: their outcome is the same whatever it
    holds, the sentence about the atlas is in no message, and with the
    required inputs held and no atlas the input is declared valid.  The
    atlas is tested for a setting that is none of the three, and only
    then. *)
Theorem atlas_check_unreachable (n setting : option Z) (d : Dashboard) :
  setting = Some 1 \/ setting = Some 2 \/ setting = Some 3 ->
  (forall a,
     run_dash.validate_checks setting (set_atlas a d)
     = run_dash.validate_checks setting d)
  /\ (forall msg err d',
        run_dash.validate n setting d = Some (msg, err, d') ->
        contains "Parsing unsuccessful, no atlas found." msg = false)
  /\ (required_present setting d = true ->
      forall k,
        run_dash.validate (Some k) setting (set_atlas None d)
        = Some ("", false, set_valid true (set_atlas None d)))
  /\ (forall s, s <> 1 -> s <> 2 -> s <> 3 ->
        run_dash.validate_checks (Some s) (set_atlas None d)
        = ("Parsing unsuccessful, no atlas found. ", true)).
Proof.
  intro Hs. repeat split.
  - intro a. destruct Hs as [-> | [-> | ->]]; reflexivity.
  - intros msg err d'. unfold run_dash.validate.
    destruct n as [k|]; [|discriminate].
    destruct Hs as [-> | [-> | ->]]; simpl;
      destruct (dcp1 d), (dcp2 d), (match_df d); simpl;
      intro H; inversion H; reflexivity.
  - destruct Hs as [-> | [-> | ->]]; simpl;
      destruct (dcp1 d), (dcp2 d), (match_df d); simpl;
      intros H k; try discriminate H; reflexivity.
  - intros s H1 H2 H3. unfold run_dash.validate_checks.
    by_setting s; try contradiction. reflexivity.
Qed.

End Validate.

(** Both groups loaded and no atlas: still valid under Comparison. *)
Lemma atlas_check_unreachable_witness :
  run_dash.validate (L := Sample.lib) (Some 1) (Some 2)
    (set_atlas None (run_dash.handle_all (firstn 3 Sample.compare_then_match) init))
  = Some ("", false,
          set_valid true
            (set_atlas None
               (run_dash.handle_all (firstn 3 Sample.compare_then_match) init))).
Proof.
  refine (proj1 (proj2 (proj2 (atlas_check_unreachable (L := Sample.lib)
    (Some 1) (Some 2)
    (run_dash.handle_all (firstn 3 Sample.compare_then_match) init)
    (or_intror (or_introl eq_refl))))) eq_refl 1).
Defined.


(** * Further properties *)

(** ** The batch loop of [_parse_files] *)

Section Batch.
Context {L : Collaborators}.

Lemma parse_loop_app (l1 l2 : list (string * string)) data :
  run_dash.parse_loop (l1 ++ l2) data
  = rbind (run_dash.parse_loop l1 data) (run_dash.parse_loop l2).
Proof.
  revert data. induction l1 as [|[c n] l1 IH]; intro data; simpl;
    [reflexivity|].
  destruct (run_dash.parse_file c n) as [v|e]; simpl; [apply IH|reflexivity].
Qed.

Lemma parse_loop_ok (pairs : list (string * string)) data0 data :
  run_dash.parse_loop pairs data0 = Ok data <->
  exists vs,
    data = (data0 ++ vs)%list
    /\ Forall2 (fun p v => run_dash.parse_file (fst p) (snd p) = Ok v) pairs vs.
Proof.
  revert data0. induction pairs as [|[c n] rest IH]; intro data0; simpl.
  - split.
    + intro H. inversion H. exists []. rewrite app_nil_r. split; constructor.
    + intros (vs & -> & HF). inversion HF. rewrite app_nil_r. reflexivity.
  - destruct (run_dash.parse_file c n) as [v|e] eqn:Hf; simpl.
    + rewrite IH. split.
      * intros (vs & -> & HF). exists (v :: vs).
        rewrite <- app_assoc. split; [reflexivity|].
        constructor; [exact Hf|exact HF].
      * intros (vs & -> & HF). inversion HF as [|p v' ps vs' Hv HF']; subst.
        simpl in Hv. rewrite Hf in Hv. inversion Hv; subst.
        exists vs'. rewrite <- app_assoc. split; [reflexivity|exact HF'].
    + split; [discriminate|].
      intros (vs & _ & HF). inversion HF as [|p v' ps vs' Hv HF']; subst.
      simpl in Hv. rewrite Hf in Hv. discriminate.
Qed.

(** X1.  The loop over a batch returns exactly when every file parses, and
    then the data handed to the decomposition has one entry per pair of
    [zip(contents, files)], in the order of the batch: the value each file
    parsed to. *)
Theorem batch_data_in_order (contents files : list string)
  (data : list (option ndarray)) :
  run_dash.parse_loop (combine contents files) [] = Ok data <->
  Forall2 (fun p v => run_dash.parse_file (fst p) (snd p) = Ok v)
    (combine contents files) data.
Proof.
  rewrite parse_loop_ok. simpl. split.
  - intros (vs & -> & HF). exact HF.
  - intro HF. exists data. split; [reflexivity|exact HF].
Qed.

(** X2.  The first file of a batch that fails decides the outcome: when the
    files before it parse and it raises [e], [_parse_files] raises [e]
    whatever follows in the batch, the decomposition is not built, and the
    dashboard object is left as it was. *)
Theorem batch_first_error (before after : list (string * string))
  (content name : string) (e : exn) (data0 : list (option ndarray))
  (contents files : list string) (t : pyfloat) (d : Dashboard) :
  combine contents files = (before ++ (content, name) :: after)%list ->
  run_dash.parse_loop before [] = Ok data0 ->
  run_dash.parse_file content name = Raise e ->
  run_dash._parse_files contents (Some files) t d = (Raise e, d).
Proof.
  intros Hz Hb Hf.
  unfold run_dash._parse_files, bind, lift. rewrite Hz, parse_loop_app, Hb.
  simpl. rewrite Hf. reflexivity.
Qed.

(** X3.  A file whose suffix is neither [.mat] nor [.csv] is not looked at:
    whatever its content descriptor, nothing is decoded and nothing raises,
    and [None] takes its place in the data the decomposition is built
    from. *)
Theorem unsupported_suffix_skipped (content name : string) :
  suffix name <> ".mat" -> suffix name <> ".csv" ->
  run_dash.parse_file content name = Ok None
  /\ forall t d,
       run_dash._parse_files [content] (Some [name]) t d
       = match new_Decomposition [None] t with
         | Raise e => (Raise e, d)
         | Ok dcp => (Ok dcp, set_atlas (dcp_atlas dcp) d)
         end.
Proof.
  intros Hm Hc.
  assert (Hf : run_dash.parse_file content name = Ok None).
  { unfold run_dash.parse_file.
    destruct (String.eqb_spec (suffix name) ".mat"); [contradiction|].
    destruct (String.eqb_spec (suffix name) ".csv"); [contradiction|].
    reflexivity. }
  split; [exact Hf|].
  intros t d. rewrite parse_files_single, Hf. reflexivity.
Qed.

(** X4.  [zip] stops at the shorter list: contents without a name and names
    without a content are dropped without a word. *)
Theorem batch_surplus_dropped (contents files : list string) (t : pyfloat)
  (d : Dashboard) :
  run_dash._parse_files contents (Some files) t d
  = run_dash._parse_files (firstn (List.length files) contents)
      (Some (firstn (List.length contents) files)) t d.
Proof.
  unfold run_dash._parse_files.
  replace (combine (firstn (List.length files) contents)
             (firstn (List.length contents) files))
    with (combine contents files); [reflexivity|].
  revert files. induction contents as [|c cs IH]; intros [|f fs]; simpl;
    try reflexivity.
  f_equal. apply IH.
Qed.

End Batch.

(** A [.csv] file, then a [.mat] file with no matrix, then a file that is
    never reached. *)
Lemma batch_first_error_witness :
  run_dash._parse_files (L := Sample.lib)
    [Sample.csv_a; Sample.mat_meta; "no comma here"]
    (Some ["a.csv"; "b.mat"; "c.csv"]) Sample.t072 init
  = (Raise NoMatrixFound, init).
Proof.
  exact (batch_first_error (L := Sample.lib)
           [(Sample.csv_a, "a.csv")] [("no comma here", "c.csv")]
           Sample.mat_meta "b.mat" NoMatrixFound _
           [Sample.csv_a; Sample.mat_meta; "no comma here"]
           ["a.csv"; "b.mat"; "c.csv"] Sample.t072 init
           eq_refl eq_refl eq_refl).
Defined.

(** An upper-case suffix is not [.mat]: the file is skipped. *)
Lemma unsupported_suffix_skipped_witness :
  run_dash.parse_file (L := Sample.lib) "not a descriptor" "SCAN.MAT" = Ok None.
Proof.
  refine (proj1 (unsupported_suffix_skipped (L := Sample.lib)
                   "not a descriptor" "SCAN.MAT" _ _)); discriminate.
Defined.

(** ** File names: [Path(name).suffix], and [file_format] of [utils.py] *)

Lemma length_app (s t : string) :
  String.length (s ++ t) = (String.length s + String.length t)%nat.
Proof. induction s as [|a s IH]; simpl; [reflexivity|now rewrite IH]. Qed.

Lemma str_app_assoc (s t u : string) : (s ++ t) ++ u = s ++ t ++ u.
Proof. induction s as [|a s IH]; simpl; [reflexivity|now rewrite IH]. Qed.

Lemma has_char_app (c : ascii) (s t : string) :
  has_char c (s ++ t) = (has_char c s || has_char c t)%bool.
Proof.
  induction s as [|a s IH]; simpl; [reflexivity|].
  rewrite IH. apply orb_assoc.
Qed.

Lemma after_last_none (c : ascii) (s : string) :
  after_last c s = None <-> has_char c s = false.
Proof.
  induction s as [|a s IH]; simpl; [tauto|].
  destruct (after_last c s) as [t|].
  - split; [discriminate|]. intro H. apply orb_false_iff in H.
    destruct H as [_ H]. apply IH in H. discriminate.
  - destruct (Ascii.eqb a c); simpl; [split; discriminate|].
    split; intros _; [apply IH|]; reflexivity.
Qed.

Lemma after_last_some (c : ascii) (s t : string) :
  after_last c s = Some t ->
  has_char c t = false /\ exists pre, s = pre ++ String c t.
Proof.
  revert t. induction s as [|a s IH]; intro t; simpl; [discriminate|].
  destruct (after_last c s) as [u|] eqn:Hs.
  - intro H. inversion H; subst u.
    destruct (IH t eq_refl) as (Hn & pre & ->).
    split; [exact Hn|]. exists (String a pre). reflexivity.
  - destruct (Ascii.eqb_spec a c) as [->|]; [|discriminate].
    intro H. inversion H; subst t.
    split; [apply after_last_none, Hs|]. exists "". reflexivity.
Qed.

Lemma after_last_tail (c : ascii) (s t : string) :
  has_char c t = false ->
  after_last c (s ++ t)
  = match after_last c s with
    | Some r => Some (r ++ t)
    | None => None
    end.
Proof.
  intro Ht. induction s as [|a s IH]; simpl.
  - apply after_last_none, Ht.
  - rewrite IH. destruct (after_last c s); [reflexivity|].
    destruct (Ascii.eqb a c); reflexivity.
Qed.

Lemma after_last_at (c : ascii) (pre t : string) :
  has_char c t = false -> after_last c (pre ++ String c t) = Some t.
Proof.
  intro Ht. induction pre as [|a pre IH]; simpl.
  - apply after_last_none in Ht. rewrite Ht, Ascii.eqb_refl. reflexivity.
  - rewrite IH. reflexivity.
Qed.

Lemma final_component_plain (name : string) :
  has_char "/" (final_component name) = false.
Proof.
  unfold final_component.
  destruct (after_last "/" name) as [t|] eqn:H.
  - apply (after_last_some _ _ _ H).
  - apply after_last_none, H.
Qed.

Lemma final_component_tail (stem t : string) :
  has_char "/" t = false ->
  final_component stem <> "" ->
  final_component (stem ++ t) = final_component stem ++ t.
Proof.
  intros Ht Hne. unfold final_component in *.
  rewrite (after_last_tail _ _ _ Ht).
  destruct (after_last "/" stem); reflexivity.
Qed.


(** ** Splitting text *)

Lemma split_plain (c : ascii) (s : string) :
  has_char c s = false -> split c s = [s].
Proof.
  induction s as [|a s IH]; simpl; [reflexivity|].
  destruct (Ascii.eqb a c); simpl; [discriminate|].
  intro H. rewrite (IH H). reflexivity.
Qed.

Lemma split_at (c : ascii) (a b : string) :
  has_char c a = false -> split c (a ++ String c b) = a :: split c b.
Proof.
  induction a as [|x a IH]; simpl.
  - intros _. rewrite Ascii.eqb_refl. reflexivity.
  - destruct (Ascii.eqb x c); simpl; [discriminate|].
    intro H. rewrite (IH H). reflexivity.
Qed.

Lemma split_two (c : ascii) (s : string) :
  has_char c s = true -> exists a b rest, split c s = a :: b :: rest.
Proof.
  induction s as [|x s IH]; simpl; [discriminate|].
  destruct (Ascii.eqb x c); simpl.
  - intros _. destruct (split c s) as [|b rest] eqn:Hs.
    + destruct s; simpl in Hs; [discriminate|].
      destruct (Ascii.eqb _ c); [discriminate|].
      destruct (split c s); discriminate.
    + eauto.
  - intro H. destruct (IH H) as (a & b & rest & ->). eauto.
Qed.

Lemma split_parts_plain (c : ascii) (s : string) :
  Forall (fun x => has_char c x = false) (split c s).
Proof.
  induction s as [|x s IH]; simpl; [repeat constructor|].
  destruct (Ascii.eqb x c) eqn:Hx.
  - constructor; [reflexivity|exact IH].
  - destruct (split c s) as [|h t]; [repeat constructor; simpl; now rewrite Hx|].
    inversion IH; subst. constructor; [simpl; now rewrite Hx|assumption].
Qed.

Lemma split_head (c : ascii) (s : string) :
  exists a rest,
    split c s = a :: rest
    /\ (rest = [] -> s = a)
    /\ (forall b rest', rest = b :: rest' ->
        exists tail, s = a ++ String c tail /\ split c tail = b :: rest').
Proof.
  induction s as [|x s IH]; simpl.
  - exists "", []. repeat split. intros; discriminate.
  - destruct IH as (a & rest & Hs & Hone & Hmore).
    destruct (Ascii.eqb_spec x c) as [->|Hx].
    + exists "", (split c s). repeat split.
      * rewrite Hs. discriminate.
      * intros b rest' Hr. exists s. split; [reflexivity|exact Hr].
    + rewrite Hs. exists (String x a), rest. repeat split.
      * intro Hr. rewrite (Hone Hr). reflexivity.
      * intros b rest' Hr. destruct (Hmore b rest' Hr) as (tail & -> & Ht).
        exists tail. split; [reflexivity|exact Ht].
Qed.

Lemma concat_split (c : ascii) (s : string) :
  String.concat (String c "") (split c s) = s.
Proof.
  induction s as [|x s IH]; simpl; [reflexivity|].
  destruct (Ascii.eqb_spec x c) as [->|Hx].
  - destruct (split c s) as [|h t] eqn:Hs.
    + destruct (split_head c s) as (a & rest & H & _). congruence.
    + simpl. simpl in IH. rewrite IH. reflexivity.
  - destruct (split c s) as [|h t] eqn:Hs.
    + destruct (split_head c s) as (a & rest & H & _). congruence.
    + simpl in *. destruct t; simpl in *; rewrite <- IH; reflexivity.
Qed.

Lemma substring_short (n : nat) (s : string) :
  (String.length s <= n)%nat -> substring 0 n s = s.
Proof.
  revert n. induction s as [|a s IH]; intros [|n]; simpl; intro H;
    try reflexivity; [lia|].
  rewrite IH by lia. reflexivity.
Qed.

Lemma substring_length_le (n : nat) (s : string) :
  (String.length (substring 0 n s) <= n)%nat.
Proof.
  revert s. induction n as [|n IH]; intros [|a s]; simpl; try lia.
  specialize (IH s). lia.
Qed.

Lemma substring_plain (c : ascii) (n : nat) (s : string) :
  has_char c s = false -> has_char c (substring 0 n s) = false.
Proof.
  revert n. induction s as [|a s IH]; intros [|n]; simpl; try reflexivity.
  intro H. apply orb_false_iff in H. destruct H as [-> H]. simpl.
  apply IH, H.
Qed.

(** ** Table cells: [_set_precision] and [_handle_complex] *)

Section Cells.
Variable float_str : pyfloat -> string.

(** The text [_set_precision] works on. *)
Let text (number : pynumber) : string :=
  match number with
  | PyStr s => s
  | PyFloat f => float_str f
  end.

Lemma set_precision_cut (s0 s1 : string) :
  (if Nat.ltb 5 (String.length s1) then substring 0 5 s1 else s1)
  = substring 0 5 s1.
Proof.
  destruct (Nat.ltb_spec 5 (String.length s1)); [reflexivity|].
  symmetry. apply substring_short. lia.
Qed.

Lemma set_precision_text (s : string) :
  views._set_precision float_str (PyStr s) = IndexError <->
  has_char "." s = false.
Proof.
  unfold views._set_precision. simpl views.is_inf. cbv iota.
  destruct (has_char "." s) eqn:Hd.
  - destruct (split_two _ _ Hd) as (a & b & rest & ->).
    split; discriminate.
  - rewrite (split_plain _ _ Hd). tauto.
Qed.

(** X6.  [_set_precision] raises [IndexError] exactly on a number that is
    not the float infinity and whose text holds no dot: the texts [inf],
    [nan], [1e-05] or [5] are such. *)
Theorem set_precision_needs_dot (number : pynumber) :
  views._set_precision float_str number = IndexError <->
  views.is_inf number = false /\ has_char "." (text number) = false.
Proof.
  unfold views._set_precision. fold (text number).
  destruct (views.is_inf number).
  - split; [discriminate|]. intros [H _]. discriminate.
  - destruct (has_char "." (text number)) eqn:Hd.
    + destruct (split_two _ _ Hd) as (a & b & rest & ->).
      split; [discriminate|]. intros [_ H]. discriminate.
    + rewrite (split_plain _ _ Hd). tauto.
Qed.

(** X7.  On a text with one dot, [_set_precision] keeps what is before the
    dot and the first five characters after it: the digits past the fifth
    are cut, not rounded, and an exponent written after them is cut with
    them. *)
Theorem set_precision_truncates (a b : string) :
  has_char "." a = false -> has_char "." b = false ->
  views._set_precision float_str (PyStr (a ++ String "." b))
  = Item (a ++ String "." (substring 0 5 b)).
Proof.
  intros Ha Hb. unfold views._set_precision. simpl views.is_inf. cbv iota.
  rewrite (split_at _ _ _ Ha), (split_plain _ _ Hb).
  rewrite set_precision_cut by exact a. reflexivity.
Qed.

(** X8.  What [_set_precision] returns for a number other than the float
    infinity has no dot before its one dot and at most five characters
    after it, and formatting it again returns it unchanged. *)
Theorem set_precision_idempotent (number : pynumber) (r : string) :
  views.is_inf number = false ->
  views._set_precision float_str number = Item r ->
  (exists a t, r = a ++ String "." t
               /\ has_char "." a = false /\ has_char "." t = false
               /\ (String.length t <= 5)%nat)
  /\ views._set_precision float_str (PyStr r) = Item r.
Proof.
  intros Hinf H. unfold views._set_precision in H. rewrite Hinf in H.
  fold (text number) in H.
  pose proof (split_parts_plain "." (text number)) as Hparts.
  destruct (split "." (text number)) as [|s0 [|s1 rest]]; try discriminate.
  inversion Hparts as [|x l H0 Hl]; subst.
  inversion Hl as [|x l H1 _]; subst.
  rewrite set_precision_cut in H by exact s0.
  inversion H; subst r. clear H.
  assert (Ht : has_char "." (substring 0 5 s1) = false)
    by (apply substring_plain, H1).
  split.
  - exists s0, (substring 0 5 s1). repeat split; try assumption.
    apply substring_length_le.
  - change (s0 ++ "." ++ substring 0 5 s1)
      with (s0 ++ String "." (substring 0 5 s1)).
    unfold views._set_precision. simpl views.is_inf. cbv iota.
    rewrite (split_at _ _ _ H0), (split_plain _ _ Ht).
    rewrite set_precision_cut by exact s0.
    rewrite (substring_short 5 (substring 0 5 s1))
      by apply substring_length_le.
    reflexivity.
Qed.

(** X9.  [_handle_complex] raises [IndexError] exactly when the text of the
    real part, or of the magnitude of the imaginary part, holds no dot.  The
    infinity that [_set_precision] accepts as a float is refused here: it
    arrives as the text [inf]. *)
Theorem handle_complex_needs_dots (re im : pyfloat) :
  views._handle_complex float_str (re, im) = IndexError <->
  has_char "." (float_str re) = false
  \/ has_char "." (float_str (SFabs im)) = false.
Proof.
  unfold views._handle_complex. simpl fst. simpl snd.
  pose proof (set_precision_text (float_str re)) as Hre.
  pose proof (set_precision_text (float_str (SFabs im))) as Him.
  destruct (views._set_precision float_str (PyStr (float_str re))) as [a|].
  - destruct (views._set_precision float_str (PyStr (float_str (SFabs im))))
      as [b|].
    + split; [discriminate|].
      intros [H|H]; [apply Hre in H|apply Him in H]; discriminate.
    + split; [|reflexivity]. intros _. right. apply Him. reflexivity.
  - split; [|reflexivity]. intros _. left. apply Hre. reflexivity.
Qed.

End Cells.

(** A small number in scientific notation loses its exponent. *)
Lemma set_precision_truncates_witness :
  views._set_precision (fun _ => "nan") (PyStr "1.2345678e-07")
  = Item "1.23456".
Proof.
  exact (set_precision_truncates (fun _ => "nan") "1" "2345678e-07"
           eq_refl eq_refl).
Defined.

Lemma set_precision_idempotent_witness :
  views._set_precision (fun _ => "nan") (PyStr "0.72000") = Item "0.72000".
Proof.
  exact (proj2 (set_precision_idempotent (fun _ => "nan")
                  (PyStr "0.7200000001") "0.72000" eq_refl eq_refl)).
Defined.

(** ** The log relay: [update_logs] *)

(** X10.  With a console, a tick of the log relay keeps every row already
    shown, reads the file to its end, and adds the text it read cut at the
    line breaks: joined by line breaks the new rows are that text again, so
    nothing is lost, and there is at least one new row.  A tick that finds
    nothing new still adds one empty row.  Without a console the file is not
    read. *)
Theorem update_logs_appends (console : list string) (logfile : string) :
  (exists rows,
     views.update_logs (Some console) logfile
     = (Some (console ++ rows)%list, "")
     /\ rows <> []
     /\ String.concat (String newline "") rows = logfile
     /\ Forall (fun row => has_char newline row = false) rows)
  /\ views.update_logs (Some console) "" = (Some (console ++ [""])%list, "")
  /\ views.update_logs None logfile = (None, logfile).
Proof.
  split; [|split; reflexivity].
  exists (split newline logfile). repeat split.
  - destruct (split_head newline logfile) as (a & rest & H & _).
    rewrite H. discriminate.
  - apply concat_split.
  - apply split_parts_plain.
Qed.

Lemma fold_log_line (lines : list string) (start : string) :
  fold_left (fun f l => views.log_line l f) lines start
  = start ++ fold_left (fun f l => views.log_line l f) lines "".
Proof.
  revert start. induction lines as [|l lines IH]; intro start; simpl.
  - induction start as [|a s IHs]; simpl; [reflexivity|now rewrite <- IHs].
  - rewrite IH. rewrite (IH (views.log_line l "")).
    unfold views.log_line. simpl. rewrite !str_app_assoc. reflexivity.
Qed.



(** ** What survives a computation *)

Section Stable.
Context {S : Type} (P : S -> Prop).

Lemma stable_ret {A} (a : A) : stable P (ret a).
Proof. intros s H. exact H. Qed.

Lemma stable_raise {A} (e : exn) : stable P (raise (A := A) e).
Proof. intros s H. exact H. Qed.

Lemma stable_lift {A} (r : result A) : stable P (lift r).
Proof. intros s H. exact H. Qed.

Lemma stable_gets {A} (g : S -> A) : stable P (gets g).
Proof. intros s H. exact H. Qed.

Lemma stable_modify (g : S -> S) :
  (forall s, P s -> P (g s)) -> stable P (modify g).
Proof. intros H s Hs. apply H, Hs. Qed.

Lemma stable_bind {A B} (m : M S A) (k : A -> M S B) :
  stable P m -> (forall a, stable P (k a)) -> stable P (bind m k).
Proof.
  intros Hm Hk s Hs. unfold bind.
  specialize (Hm s Hs). destruct (m s) as [[a|e] s']; simpl in *.
  - apply Hk, Hm.
  - exact Hm.
Qed.

Lemma stable_if {A} (b : bool) (m1 m2 : M S A) :
  stable P m1 -> stable P m2 -> stable P (if b then m1 else m2).
Proof. destruct b; auto. Qed.

End Stable.

(** A first step that establishes more than it was given. *)
Lemma stable_strengthen {S A B} (P Q : S -> Prop) (m : M S A)
  (k : A -> M S B) :
  (forall s, P s -> Q (snd (m s))) ->
  (forall s, Q s -> P s) ->
  (forall a, stable Q (k a)) ->
  stable P (bind m k).
Proof.
  intros Hm HQ Hk s Hs. unfold bind.
  specialize (Hm s Hs). destruct (m s) as [[a|e] s']; simpl in *.
  - apply HQ, Hk, Hm.
  - apply HQ, Hm.
Qed.

Section StableUpload.
Context {L : Collaborators}.
Variable P : Dashboard -> Prop.

Let PF (fr : run_dash.Frame) : Prop := P (run_dash.self fr).

Lemma stable_on_self {A} (m : M Dashboard A) :
  stable P m -> stable PF (run_dash.on_self m).
Proof.
  intros H fr Hfr. unfold run_dash.on_self, PF in *.
  specialize (H (run_dash.self fr) Hfr).
  destruct (m (run_dash.self fr)) as [r s]. exact H.
Qed.

Hypothesis P_atlas : forall a d, P d -> P (set_atlas a d).

Lemma parse_files_stable contents files t :
  stable P (run_dash._parse_files contents files t).
Proof.
  unfold run_dash._parse_files.
  destruct files as [files|]; [|apply stable_raise].
  repeat (apply stable_bind; [|intro]);
    auto using stable_lift, stable_ret, stable_modify.
Qed.

Hypothesis P_dcp1 : forall g d, P d -> P (set_dcp1 (Some g) d).

Lemma group1_stable c1 time n1 :
  stable PF (run_dash.upload_group1 c1 time n1).
Proof.
  unfold run_dash.upload_group1, run_dash.group1_parsed.
  destruct c1 as [c1|]; [|apply stable_ret].
  repeat (apply stable_bind; [|intro]);
    first [ apply stable_lift
          | apply stable_on_self, parse_files_stable
          | apply stable_on_self, stable_modify; intros; apply P_dcp1;
            assumption
          | apply stable_modify; intros s Hs; exact Hs ].
Qed.

Hypothesis P_dcp2 : forall g d, P d -> P (set_dcp2 (Some g) d).

Lemma comparison_stable c2 time n2 :
  stable PF (run_dash.upload_comparison c2 time n2).
Proof.
  unfold run_dash.upload_comparison, run_dash.comparison_parsed.
  repeat (apply stable_bind; [|intro]);
    first [ apply stable_lift
          | apply stable_on_self, parse_files_stable
          | apply stable_on_self, stable_modify; intros; apply P_dcp2;
            assumption
          | apply stable_modify; intros s Hs; exact Hs ].
Qed.

(** The match result is assigned where a match group is held. *)
Hypothesis P_group : forall g d, P d -> P (set_match_group (Some g) d).
Hypothesis P_match :
  forall df x y d, P d -> match_group d <> None -> P (set_match df x y d).

Let PG (fr : run_dash.Frame) : Prop :=
  P (run_dash.self fr) /\ match_group (run_dash.self fr) <> None.

Lemma match_parsed_stable mg approx_deg :
  stable PF (run_dash.match_parsed mg approx_deg).
Proof.
  assert (Hself : forall g : Dashboard -> Dashboard,
             (forall d, P d /\ match_group d <> None ->
                        P (g d) /\ match_group (g d) <> None) ->
             stable PG (run_dash.on_self (modify g))).
  { intros g Hg fr [H1 H2]. apply (Hg _ (conj H1 H2)). }
  unfold run_dash.match_parsed.
  apply (stable_strengthen PF PG).
  - intros fr Hfr. split; [apply P_group, Hfr|discriminate].
  - intros fr [H _]. exact H.
  - intros _.
    apply stable_bind; [apply stable_lift|intro mg'].
    apply stable_bind;
      [apply Hself; intros d [H1 H2]; split; [apply P_group, H1|discriminate]|].
    intros _. apply stable_bind; [apply stable_gets|intros [ref|]];
      [|apply stable_raise].
    repeat (apply stable_bind; [|intro]);
      first [ apply stable_lift
            | apply Hself; intros d [H1 H2];
              split; [apply P_match; assumption|exact H2]
            | apply stable_modify; intros s Hs; exact Hs ].
Qed.

Lemma match_stable c2 time n2 approx_deg :
  stable PF (run_dash.upload_match c2 time n2 approx_deg).
Proof.
  unfold run_dash.upload_match.
  apply stable_bind; [apply stable_lift|intro t].
  apply stable_bind; [apply stable_on_self, parse_files_stable|intro mg].
  apply match_parsed_stable.
Qed.

Lemma upload_try_stable c1 c2 time n1 n2 setting approx_deg :
  stable PF (run_dash.upload_try c1 c2 time n1 n2 setting approx_deg).
Proof.
  unfold run_dash.upload_try.
  apply stable_bind; [apply group1_stable|intros _].
  unfold run_dash.upload_group2.
  apply stable_if; [apply stable_ret|].
  apply stable_bind; [apply stable_gets|intro s].
  destruct c2 as [c2|]; [|apply stable_ret].
  apply stable_if; [|apply stable_ret].
  apply stable_bind; [|intros _].
  - apply stable_if; [apply comparison_stable|apply stable_ret].
  - apply stable_if; [apply match_stable|apply stable_ret].
Qed.

(** A property that the five assignments of [upload] respect holds after
    the callback when it held before. *)
Lemma upload_stable c1 c2 time n1 n2 setting approx_deg d :
  P d ->
  match run_dash.upload c1 c2 time n1 n2 setting approx_deg d with
  | Some (_, d') => P d'
  | None => True
  end.
Proof.
  intro Hd. unfold run_dash.upload.
  destruct (_ && _)%bool; [exact I|].
  pose proof (upload_try_stable c1 c2 time n1 n2 setting approx_deg
                (run_dash.mkFrame d None None true) Hd) as H.
  destruct (run_dash.upload_try _ _ _ _ _ _ _ _) as [[u|e] fr]; exact H.
Qed.

End StableUpload.

(** ** The dashboard object across events *)

Ltac setting_cases s :=
  destruct (Z.eqb_spec s 1) as [->|?];
    [|destruct (Z.eqb_spec s 2) as [->|?];
        [|destruct (Z.eqb_spec s 3) as [->|?]]].

Section Across.
Context {L : Collaborators}.

Lemma validate_valid (n : Z) (setting : option Z) (d : Dashboard) :
  match run_dash.validate (Some n) setting d with
  | Some (_, _, d') =>
      (d' = d \/ d' = set_valid true d)
      /\ valid d' = (valid d || required_present setting d)%bool
  | None => False
  end.
Proof.
  unfold run_dash.validate, run_dash.validate_checks, required_present.
  destruct setting as [s|].
  - setting_cases s; eval_tests;
      destruct (dcp1 d), (dcp2 d), (match_df d), (atlas d); simpl;
      (split; [auto|]);
      rewrite ?orb_true_r, ?orb_false_r; reflexivity.
  - simpl. split; [auto|]. rewrite orb_false_r. reflexivity.
Qed.

(** X12.  [valid] is set by a click on Run that finds every input the
    setting requires, and cleared by a reset; nothing else changes it.  An
    upload, whether it succeeds or raises, a change of setting, or a click on
    Run that reports a missing input leaves a [valid] that was true as it
    is. *)
Theorem valid_changes (e : run_dash.event) (d : Dashboard) :
  valid (run_dash.handle e d)
  = match e with
    | run_dash.ResetClicked (Some _) => false
    | run_dash.RunClicked (Some _) setting =>
        (valid d || required_present setting d)%bool
    | _ => valid d
    end.
Proof.
  destruct e as [v|c1 c2 t n1 n2 s a|n s|n|sw|]; simpl; try reflexivity.
  - pose proof (upload_stable (fun d' => valid d' = valid d)
                  (fun _ _ H => H) (fun _ _ H => H) (fun _ _ H => H)
                  (fun _ _ H => H) (fun _ _ _ _ H _ => H)
                  c1 c2 t n1 n2 s a d eq_refl) as H.
    destruct (run_dash.upload c1 c2 t n1 n2 s a d) as [[out d']|];
      [exact H|reflexivity].
  - destruct n as [n|]; [|reflexivity].
    pose proof (validate_valid n s d) as H.
    destruct (run_dash.validate (Some n) s d) as [[[msg err] d']|];
      [apply H|contradiction].
  - destruct n; reflexivity.
Qed.

(** X13.  Whatever its arguments and whether it succeeds or raises, [upload]
    leaves [valid], the progress counter and the imaginary switch as they
    were, and a reference, a comparison group, a match group or a match
    result that was held is still held afterwards (possibly a new one): an
    upload never empties a slot. *)
Theorem upload_never_empties c1 c2 time n1 n2 setting approx_deg
  (d : Dashboard) :
  match run_dash.upload c1 c2 time n1 n2 setting approx_deg d with
  | Some (_, d') =>
      valid d' = valid d /\ get_progress d' = get_progress d
      /\ imag d' = imag d
      /\ (dcp1 d <> None -> dcp1 d' <> None)
      /\ (dcp2 d <> None -> dcp2 d' <> None)
      /\ (match_group d <> None -> match_group d' <> None)
      /\ (match_df d <> None -> match_df d' <> None)
  | None => True
  end.
Proof.
  pose proof (upload_stable
    (fun d' =>
       valid d' = valid d /\ get_progress d' = get_progress d
       /\ imag d' = imag d
       /\ (dcp1 d <> None -> dcp1 d' <> None)
       /\ (dcp2 d <> None -> dcp2 d' <> None)
       /\ (match_group d <> None -> match_group d' <> None)
       /\ (match_df d <> None -> match_df d' <> None))) as H.
  apply H; clear H.
  - intros a d0 H. exact H.
  - intros g d0 (H1 & H2 & H3 & H4 & H5 & H6 & H7).
    repeat split; try assumption. intros _. discriminate.
  - intros g d0 (H1 & H2 & H3 & H4 & H5 & H6 & H7).
    repeat split; try assumption. intros _. discriminate.
  - intros g d0 (H1 & H2 & H3 & H4 & H5 & H6 & H7).
    repeat split; try assumption. intros _. discriminate.
  - intros df x y d0 (H1 & H2 & H3 & H4 & H5 & H6 & H7) _.
    repeat split; try assumption. intros _. discriminate.
  - repeat split; auto.
Qed.

(** The invariant behind X14. *)
Let has_reference (d : Dashboard) : Prop :=
  valid d = true -> dcp1 d <> None.

Lemma handle_has_reference (e : run_dash.event) (d : Dashboard) :
  radio_settings [e] = true ->
  has_reference d -> has_reference (run_dash.handle e d).
Proof.
  intros He Hd. destruct e as [v|c1 c2 t n1 n2 s a|n s|n|sw|]; simpl;
    try exact Hd.
  - pose proof (upload_stable has_reference) as H.
    specialize (H (fun _ _ h => h)
                  (fun _ _ _ _ => ltac:(discriminate))
                  (fun _ _ h => h) (fun _ _ h => h) (fun _ _ _ _ h _ => h)
                  c1 c2 t n1 n2 s a d Hd).
    destruct (run_dash.upload c1 c2 t n1 n2 s a d) as [[out d']|];
      [exact H|exact Hd].
  - destruct n as [n|]; [|exact Hd].
    pose proof (validate_valid n s d) as H.
    destruct (run_dash.validate (Some n) s d) as [[[msg err] d']|];
      [|contradiction].
    destruct H as [Hd' Hv]. intro Hvalid. rewrite Hv in Hvalid.
    assert (Hdcp : dcp1 d' = dcp1 d) by (destruct Hd' as [-> | ->]; reflexivity).
    rewrite Hdcp. apply orb_true_iff in Hvalid.
    destruct Hvalid as [Hvalid|Hreq]; [apply Hd, Hvalid|].
    unfold required_present in Hreq. simpl in He.
    destruct s as [s|]; [|discriminate].
    rewrite andb_true_r in He.
    setting_cases s; revert Hreq; eval_tests;
      try (simpl in He; discriminate);
      destruct (dcp1 d); simpl; intro; discriminate.
  - destruct n; [discriminate|exact Hd].
Qed.

Lemma handle_all_has_reference (es : list run_dash.event) (d : Dashboard) :
  radio_settings es = true ->
  has_reference d -> has_reference (run_dash.handle_all es d).
Proof.
  unfold run_dash.handle_all. revert d.
  induction es as [|e es IH]; intros d Hes Hd; simpl; [exact Hd|].
  simpl in Hes. apply andb_true_iff in Hes. destruct Hes as [He Hes].
  apply (IH _ Hes). apply handle_has_reference; [|exact Hd].
  simpl. rewrite He. reflexivity.
Qed.

(** X14.  From the initial state, through any events in which Run is
    clicked under one of the settings of the radio, [valid] is true only
    where a reference is held.  So the time plot, which reads the reference
    without a test, is rendered whenever it is requested with a number of
    modes and the input is valid: it does not fail on a missing
    reference. *)
Theorem valid_has_reference (dcp_df : Decomposition -> DataFrame)
  (es : list run_dash.event) (n nom : Z) :
  radio_settings es = true ->
  valid (run_dash.handle_all es init) = true ->
  exists g1,
    dcp1 (run_dash.handle_all es init) = Some g1
    /\ views.compute_timeplot dcp_df (Some n) (Some nom)
         (run_dash.handle_all es init)
       = views.Renders
           (dcp_df g1, views.df_of dcp_df (dcp2 (run_dash.handle_all es init)),
            nom + 1).
Proof.
  intros Hes Hvalid.
  assert (Hinv : has_reference (run_dash.handle_all es init)).
  { apply handle_all_has_reference; [exact Hes|].
    intro H. discriminate H. }
  specialize (Hinv Hvalid).
  destruct (dcp1 (run_dash.handle_all es init)) as [g1|] eqn:H1;
    [|contradiction].
  exists g1. split; [reflexivity|].
  unfold views.compute_timeplot, views._filter_time.
  rewrite Hvalid, H1. reflexivity.
Qed.

(** The invariant behind X15. *)
Let match_complete (d : Dashboard) : Prop :=
  match_df d <> None ->
  match_group d <> None /\ match_x d <> None /\ match_y d <> None.

Lemma handle_match_complete (e : run_dash.event) (d : Dashboard) :
  match_complete d -> match_complete (run_dash.handle e d).
Proof.
  intro Hd. destruct e as [v|c1 c2 t n1 n2 s a|n s|n|sw|]; simpl;
    try exact Hd.
  - pose proof (upload_stable match_complete) as H.
    specialize (H (fun _ _ h => h) (fun _ _ h => h) (fun _ _ h => h)).
    assert (Hg : forall g d0, match_complete d0 ->
                   match_complete (set_match_group (Some g) d0)).
    { intros g d0 H0 Hdf. destruct (H0 Hdf) as (_ & Hx & Hy).
      repeat split; [discriminate|exact Hx|exact Hy]. }
    assert (Hm : forall df x y d0, match_complete d0 ->
                   match_group d0 <> None ->
                   match_complete (set_match df x y d0)).
    { intros df x y d0 _ Hmg _. repeat split; [exact Hmg| |]; discriminate. }
    specialize (H Hg Hm c1 c2 t n1 n2 s a d Hd).
    destruct (run_dash.upload c1 c2 t n1 n2 s a d) as [[out d']|];
      [exact H|exact Hd].
  - destruct (run_dash.validate n s d) as [[[msg err] d']|] eqn:Hv;
      [|exact Hd].
    destruct (validate_state _ _ _ _ _ _ Hv) as [-> | ->]; exact Hd.
  - destruct n; [intro H; contradiction|exact Hd].
Qed.

Lemma handle_all_match_complete (es : list run_dash.event) (d : Dashboard) :
  match_complete d -> match_complete (run_dash.handle_all es d).
Proof.
  unfold run_dash.handle_all. revert d.
  induction es as [|e es IH]; intros d Hd; simpl; [exact Hd|].
  apply IH, handle_match_complete, Hd.
Qed.

(** X15.  From the initial state, through any events, a match result is
    held only together with its match group and the two series of the
    match.  So wherever a match result is held and the input is valid, the
    assertions of [compute_spectre] hold and it renders the correlation of
    the two series. *)
Theorem match_result_is_complete (dcp_df : Decomposition -> DataFrame)
  (es : list run_dash.event) (n : Z) :
  match_df (run_dash.handle_all es init) <> None ->
  exists mg x y,
    match_group (run_dash.handle_all es init) = Some mg
    /\ match_x (run_dash.handle_all es init) = Some x
    /\ match_y (run_dash.handle_all es init) = Some y
    /\ (valid (run_dash.handle_all es init) = true ->
        views.compute_spectre dcp_df (Some n) (run_dash.handle_all es init)
        = views.Renders (views.Spectre_correlation x y)).
Proof.
  intro Hdf.
  assert (Hinv : match_complete (run_dash.handle_all es init)).
  { apply handle_all_match_complete. intro H. contradiction. }
  destruct (Hinv Hdf) as (Hg & Hx & Hy).
  destruct (match_group (run_dash.handle_all es init)) as [mg|] eqn:Eg;
    [|contradiction].
  destruct (match_x (run_dash.handle_all es init)) as [x|] eqn:Ex;
    [|contradiction].
  destruct (match_y (run_dash.handle_all es init)) as [y|] eqn:Ey;
    [|contradiction].
  exists mg, x, y. repeat split.
  intro Hv. unfold views.compute_spectre. rewrite Hv, Eg, Ex, Ey. reflexivity.
Qed.

End Across.

(** ** The figure callbacks *)

Section Figures.
Context {L : Collaborators}.
Variable dcp_df : Decomposition -> DataFrame.

Lemma parse_files_ok contents files t data g (d : Dashboard) :
  run_dash.parse_loop (combine contents files) [] = Ok data ->
  new_Decomposition data t = Ok g ->
  run_dash._parse_files contents (Some files) t d
  = (Ok g, set_atlas (dcp_atlas g) d).
Proof.
  intros Hl Hn. unfold run_dash._parse_files, bind, lift, modify, ret.
  rewrite Hl, Hn. reflexivity.
Qed.

(** A match group dropped before the reference: the state it leaves. *)
Lemma upload_refused c2 names1 names2 t approx_deg (d : Dashboard) data mg mg' :
  dcp1 d = None ->
  dcp2 d = None \/ match_group d = None ->
  run_dash.parse_loop (combine c2 names2) [] = Ok data ->
  new_Decomposition data t = Ok mg ->
  dcp_run mg = Ok mg' ->
  run_dash.handle
    (run_dash.FilesUploaded None (Some c2) (Some t) names1 (Some names2)
       (Some 3) approx_deg) d
  = set_match_group (Some mg') (set_atlas (dcp_atlas mg) d).
Proof.
  intros H1 H2 Hl Hn Hr.
  assert (Hguard : (is_none (dcp2 d) || is_none (match_group d))%bool = true)
    by (destruct H2 as [-> | ->]; [reflexivity|apply orb_true_r]).
  pose proof (parse_files_ok c2 names2 t data mg d Hl Hn) as Hp.
  cbn [run_dash.handle]. rewrite upload_eq by reflexivity. cbv zeta.
  unfold run_dash.upload_try, run_dash.upload_group1, run_dash.upload_group2,
    run_dash.upload_match, run_dash.match_parsed,
    bind, lift, gets, modify, ret, raise, run_dash.on_self.
  cbn -[run_dash._parse_files]. rewrite Hguard.
  cbn -[run_dash._parse_files]. rewrite Hp.
  cbn -[run_dash._parse_files]. rewrite Hr.
  cbn -[run_dash._parse_files]. rewrite H1. reflexivity.
Qed.

(** The first slot under Analysis, with files that parse: the reference is
    held afterwards, and the match attributes are as before. *)
Lemma upload_analysis c1 c2 names1 names2 t approx_deg (d : Dashboard) data g :
  run_dash.parse_loop (combine c1 names1) [] = Ok data ->
  new_Decomposition data t = Ok g ->
  let d' := run_dash.handle
              (run_dash.FilesUploaded (Some c1) c2 (Some t) (Some names1)
                 names2 (Some 1) approx_deg) d in
  dcp1 d' <> None /\ match_group d' = match_group d
  /\ match_x d' = match_x d /\ match_y d' = match_y d /\ valid d' = valid d.
Proof.
  intros Hl Hn.
  pose proof (parse_files_ok c1 names1 t data g d Hl Hn) as Hp.
  cbn [run_dash.handle]. rewrite upload_eq by reflexivity. cbv zeta.
  unfold run_dash.upload_try, run_dash.upload_group1, run_dash.upload_group2,
    run_dash.group1_parsed,
    bind, lift, gets, modify, ret, raise, run_dash.on_self.
  cbn -[run_dash._parse_files]. rewrite Hp. cbn -[run_dash._parse_files].
  destruct (dcp_run g) as [g'|e]; cbn;
    [destruct (dcp_table g') as [tab|e]; cbn|];
    repeat split; discriminate.
Qed.

(** X16.  The assertions of [compute_spectre] can fail.  A match group is
    dropped on the second slot before any reference, its files parsing and
    running: the upload is refused but the group stays.  Then, under
    Analysis, files that parse are dropped on the first slot and Run is
    clicked: the input is declared valid, and the request for the spectre
    ends in [AssertionError]. *)
Theorem spectre_assertion_reachable
  (c1 c2 n1 n2 : list string) (t : pyfloat) (approx_deg : option Z)
  (d : Dashboard) (data1 data2 : list (option ndarray))
  (g mg mg' : Decomposition) (n : Z) :
  dcp1 d = None ->
  dcp2 d = None \/ match_group d = None ->
  match_x d = None ->
  run_dash.parse_loop (combine c2 n2) [] = Ok data2 ->
  new_Decomposition data2 t = Ok mg ->
  dcp_run mg = Ok mg' ->
  run_dash.parse_loop (combine c1 n1) [] = Ok data1 ->
  new_Decomposition data1 t = Ok g ->
  views.compute_spectre dcp_df (Some n)
    (run_dash.handle_all
       [ run_dash.FilesUploaded None (Some c2) (Some t) None (Some n2)
           (Some 3) approx_deg;
         run_dash.FilesUploaded (Some c1) (Some c2) (Some t) (Some n1)
           (Some n2) (Some 1) approx_deg;
         run_dash.RunClicked (Some n) (Some 1) ]
       d)
  = views.AssertionError.
Proof.
  intros H1 H2 Hx Hl2 Hn2 Hr Hl1 Hn1.
  unfold run_dash.handle_all. cbn [fold_left].
  rewrite (upload_refused c2 None n2 t approx_deg d data2 mg mg'
             H1 H2 Hl2 Hn2 Hr).
  pose proof (upload_analysis c1 (Some c2) n1 (Some n2) t approx_deg
                (set_match_group (Some mg') (set_atlas (dcp_atlas mg) d))
                data1 g Hl1 Hn1) as Ha.
  cbv zeta in Ha.
  destruct Ha as (Hd1 & Hmg & Hmx & _ & _).
  set (d2 := run_dash.handle _ (set_match_group _ _)) in *.
  simpl in Hmg, Hmx. rewrite Hx in Hmx.
  pose proof (validate_valid n (Some 1) d2) as Hv.
  cbn [run_dash.handle].
  destruct (run_dash.validate (Some n) (Some 1) d2) as [[[msg err] d3]|];
    [|contradiction].
  destruct Hv as [Hd3 Hv].
  assert (Hreq : required_present (Some 1) d2 = true).
  { unfold required_present. eval_tests. destruct (dcp1 d2);
      [reflexivity|contradiction]. }
  rewrite Hreq, orb_true_r in Hv.
  unfold views.compute_spectre. rewrite Hv. simpl.
  assert (Hmg3 : match_group d3 = Some mg')
    by (destruct Hd3 as [-> | ->]; exact Hmg).
  assert (Hmx3 : match_x d3 = None)
    by (destruct Hd3 as [-> | ->]; exact Hmx).
  rewrite Hmg3, Hmx3. reflexivity.
Qed.

(** X17.  Through [compute_spectre], its only caller, [_filter_spectre]
    never returns the labels Reference and Match: the spectre figure is
    requested only where no match group is held, with the labels of two
    compared groups or with an empty one, and where a match group is held
    the correlation is requested instead. *)
Theorem spectre_labels (n : option Z) (d : Dashboard)
  (df1 : DataFrame) (labels : list string) (df2 : option DataFrame) :
  views.compute_spectre dcp_df n d
  = views.Renders (views.Spectre_figure df1 labels df2) ->
  match_group d = None
  /\ ((labels = ["Group 1"; "Group 2"] /\ dcp2 d <> None)
      \/ (labels = [""] /\ dcp2 d = None /\ df2 = None)).
Proof.
  unfold views.compute_spectre, views._filter_spectre.
  destruct n as [n|]; [|discriminate].
  destruct (valid d); simpl; [|discriminate].
  destruct (match_group d) as [mg|].
  - destruct (match_x d), (match_y d); discriminate.
  - destruct (dcp2 d) as [g2|], (dcp1 d) as [g1|]; intro H; inversion H;
      (split; [reflexivity|]); [left|right]; repeat split; discriminate.
Qed.

End Figures.

(** The Analysis setting from the initial state: valid, with a reference. *)
Lemma valid_has_reference_witness :
  exists g1,
    dcp1 (run_dash.handle_all (L := Sample.lib) Sample.analysis_only init)
    = Some g1
    /\ views.compute_timeplot (L := Sample.lib) (fun _ => 0) (Some 1)
         (Some 5) (run_dash.handle_all Sample.analysis_only init)
       = views.Renders (0, None, 6).
Proof.
  destruct (valid_has_reference (L := Sample.lib) (fun _ => 0)
              Sample.analysis_only 1 5 eq_refl eq_refl) as (g1 & H1 & H2).
  exists g1. split; [exact H1|exact H2].
Defined.

(** Two groups compared, then a match: the match result is complete. *)
Lemma match_result_is_complete_witness :
  exists mg x y,
    match_group (run_dash.handle_all (L := Sample.lib)
                   Sample.compare_then_match init) = Some mg
    /\ match_x (run_dash.handle_all (L := Sample.lib)
                  Sample.compare_then_match init) = Some x
    /\ match_y (run_dash.handle_all (L := Sample.lib)
                  Sample.compare_then_match init) = Some y.
Proof.
  destruct (match_result_is_complete (L := Sample.lib) (fun _ => 0)
              Sample.compare_then_match 1 ltac:(vm_compute; discriminate))
    as (mg & x & y & Hg & Hx & Hy & _).
  exists mg, x, y. auto.
Defined.

(** From the initial state, with the sample files. *)
Lemma spectre_assertion_reachable_witness :
  views.compute_spectre (L := Sample.lib) (fun _ => 0) (Some 1)
    (run_dash.handle_all
       [ run_dash.FilesUploaded None (Some [Sample.csv_b]) (Some Sample.t072)
           None (Some ["m.csv"]) (Some 3) (Some 5);
         run_dash.FilesUploaded (Some [Sample.csv_a]) (Some [Sample.csv_b])
           (Some Sample.t072) (Some ["a.csv"]) (Some ["m.csv"]) (Some 1)
           (Some 5);
         run_dash.RunClicked (Some 1) (Some 1) ]
       init)
  = views.AssertionError.
Proof.
  exact (spectre_assertion_reachable (L := Sample.lib) (fun _ => 0)
           [Sample.csv_a] [Sample.csv_b] ["a.csv"] ["m.csv"] Sample.t072
           (Some 5) init _ _ _ _ _ 1
           eq_refl (or_introl eq_refl) eq_refl
           eq_refl eq_refl eq_refl eq_refl eq_refl).
Defined.

(** Under Analysis the spectre is requested with one empty label. *)
Lemma spectre_labels_witness :
  match_group (run_dash.handle_all (L := Sample.lib) Sample.analysis_only init)
  = None.
Proof.
  exact (proj1 (spectre_labels (L := Sample.lib) (fun _ => 0) (Some 1)
                  (run_dash.handle_all Sample.analysis_only init)
                  0 [""] None eq_refl)).
Defined.

(** ** What a successful upload leaves *)

Section Success.
Context {L : Collaborators}.

Ltac run_steps :=
  unfold bind, lift, gets, modify, ret, raise, run_dash.on_self;
  cbn -[run_dash._parse_files].

Lemma group1_success c1 time n1 fr u fr' :
  run_dash.upload_group1 (Some c1) time n1 fr = (Ok u, fr') ->
  dcp1 (run_dash.self fr') <> None /\ run_dash.tab1 fr' <> None
  /\ dcp2 (run_dash.self fr') = dcp2 (run_dash.self fr)
  /\ match_group (run_dash.self fr') = match_group (run_dash.self fr)
  /\ run_dash.tab2 fr' = run_dash.tab2 fr
  /\ run_dash.disabled fr' = run_dash.disabled fr.
Proof.
  unfold run_dash.upload_group1, run_dash.group1_parsed. run_steps.
  destruct (run_dash.float_ time) as [t|e]; cbn -[run_dash._parse_files];
    [|discriminate].
  destruct (run_dash._parse_files c1 n1 t (run_dash.self fr))
    as [[g|e] d1] eqn:Hp; cbn; [|discriminate].
  pose proof (parse_files_result _ _ _ _ _ _ Hp) as Hd1. simpl in Hd1.
  destruct (dcp_run g) as [g'|e]; cbn; [|discriminate].
  destruct (dcp_table g') as [tab|e]; cbn; [|discriminate].
  intro H. inversion H; subst. cbn. repeat split; discriminate.
Qed.

Lemma comparison_success c2 time n2 fr u fr' :
  run_dash.upload_comparison c2 time n2 fr = (Ok u, fr') ->
  dcp2 (run_dash.self fr') <> None /\ run_dash.tab2 fr' <> None
  /\ run_dash.disabled fr' = false
  /\ dcp1 (run_dash.self fr') = dcp1 (run_dash.self fr)
  /\ run_dash.tab1 fr' = run_dash.tab1 fr.
Proof.
  unfold run_dash.upload_comparison, run_dash.comparison_parsed. run_steps.
  destruct (run_dash.float_ time) as [t|e]; cbn -[run_dash._parse_files];
    [|discriminate].
  destruct (run_dash._parse_files c2 n2 t (run_dash.self fr))
    as [[g|e] d1] eqn:Hp; cbn; [|discriminate].
  pose proof (parse_files_result _ _ _ _ _ _ Hp) as Hd1. simpl in Hd1.
  destruct (dcp_run g) as [g'|e]; cbn; [|discriminate].
  destruct (dcp_table g') as [tab|e]; cbn; [|discriminate].
  intro H. inversion H; subst. cbn. repeat split; discriminate.
Qed.

Lemma match_success c2 time n2 approx_deg fr u fr' :
  run_dash.upload_match c2 time n2 approx_deg fr = (Ok u, fr') ->
  dcp1 (run_dash.self fr') <> None
  /\ match_group (run_dash.self fr') <> None
  /\ match_df (run_dash.self fr') <> None
  /\ run_dash.tab2 fr' <> None
  /\ run_dash.disabled fr' = false
  /\ dcp1 (run_dash.self fr') = dcp1 (run_dash.self fr)
  /\ run_dash.tab1 fr' = run_dash.tab1 fr.
Proof.
  unfold run_dash.upload_match, run_dash.match_parsed. run_steps.
  destruct (run_dash.float_ time) as [t|e]; cbn -[run_dash._parse_files];
    [|discriminate].
  destruct (run_dash._parse_files c2 n2 t (run_dash.self fr))
    as [[g|e] d1] eqn:Hp; cbn; [|discriminate].
  pose proof (parse_files_result _ _ _ _ _ _ Hp) as Hd1. simpl in Hd1.
  destruct (dcp_run g) as [g'|e]; cbn; [|discriminate].
  subst d1. cbn.
  destruct (dcp1 (run_dash.self fr)) as [ref|] eqn:Href; cbn; [|discriminate].
  destruct approx_deg as [deg|]; cbn; [|discriminate].
  destruct (dcp_atlas g') as [a|]; cbn; [|discriminate].
  destruct (no_modes deg (atlas_size a)) as [m|e]; cbn; [|discriminate].
  destruct (compute_match ref g' m) as [[[df x] y]|e]; cbn; [|discriminate].
  destruct (match_table df) as [tab|e]; cbn; [|discriminate].
  intro H. inversion H; subst. cbn. rewrite Href.
  repeat split; discriminate.
Qed.

Lemma group2_success c2 time n2 setting approx_deg fr u fr' :
  run_dash.upload_group2 c2 time n2 setting approx_deg fr = (Ok u, fr') ->
  dcp1 (run_dash.self fr') = dcp1 (run_dash.self fr)
  /\ run_dash.tab1 fr' = run_dash.tab1 fr
  /\ (c2 <> None ->
      dcp2 (run_dash.self fr) = None \/ match_group (run_dash.self fr) = None ->
      (setting = Some 2 ->
       dcp2 (run_dash.self fr') <> None /\ run_dash.tab2 fr' <> None
       /\ run_dash.disabled fr' = false)
      /\ (setting = Some 3 ->
          dcp1 (run_dash.self fr') <> None
          /\ match_group (run_dash.self fr') <> None
          /\ match_df (run_dash.self fr') <> None
          /\ run_dash.tab2 fr' <> None
          /\ run_dash.disabled fr' = false)).
Proof.
  unfold run_dash.upload_group2.
  destruct (run_dash.setting_is 1 setting) eqn:E1.
  { intro H. inversion H; subst. split; [reflexivity|]. split; [reflexivity|].
    intros _ _. split; intros ->; discriminate. }
  unfold bind at 1. cbn [gets].
  destruct c2 as [c2|].
  2:{ intro H. inversion H; subst. split; [reflexivity|]. split; [reflexivity|].
      intro Hc. contradiction. }
  destruct (is_none (dcp2 (run_dash.self fr))
            || is_none (match_group (run_dash.self fr)))%bool eqn:Hg.
  2:{ intro H. inversion H; subst. split; [reflexivity|].
      split; [reflexivity|]. intros _ [Hn|Hn]; rewrite Hn in Hg;
        [discriminate|rewrite orb_true_r in Hg; discriminate]. }
  unfold bind.
  destruct (run_dash.setting_is 2 setting) eqn:E2;
    destruct (run_dash.setting_is 3 setting) eqn:E3.
  - destruct setting as [s|]; [|discriminate]. simpl in E2, E3.
    apply Z.eqb_eq in E2, E3. lia.
  - destruct (run_dash.upload_comparison c2 time n2 fr) as [[v|e] fr1] eqn:Hc;
      [|discriminate].
    intro H. inversion H; subst.
    destruct (comparison_success _ _ _ _ _ _ Hc) as (H2 & Ht & Hd & H1 & Ht1).
    split; [exact H1|]. split; [exact Ht1|]. intros _ _.
    split; [intros _; auto|intros ->; discriminate].
  - cbn [ret].
    destruct (run_dash.upload_match c2 time n2 approx_deg fr)
      as [[v|e] fr1] eqn:Hm; [|discriminate].
    intro H. inversion H; subst.
    destruct (match_success _ _ _ _ _ _ _ Hm)
      as (H1 & Hmg & Hdf & Ht & Hd & H1' & Ht1).
    split; [exact H1'|]. split; [exact Ht1|]. intros _ _.
    split; [intros ->; discriminate|intros _; auto].
  - cbn [ret]. intro H. inversion H; subst.
    split; [reflexivity|]. split; [reflexivity|]. intros _ _.
    split; intros ->; discriminate.
Qed.

(** X18.  When [upload] reports no error its message is empty and every slot
    that came with files is loaded: the reference and its table for the
    first slot; for the second slot, where a comparison group or a match
    group was still missing, the comparison group and its table under
    Comparison, and under Mode Matching the match group, the match result
    and its table, found against a reference that is held.  The second tab
    is then enabled. *)
Theorem upload_success c1 c2 time n1 n2 setting approx_deg
  (d d' : Dashboard) (out : run_dash.UploadOutputs) :
  run_dash.upload c1 c2 time n1 n2 setting approx_deg d = Some (out, d') ->
  run_dash.out_error out = false ->
  run_dash.out_message out = ""
  /\ (c1 <> None -> dcp1 d' <> None /\ run_dash.out_tab1 out <> None)
  /\ (c2 <> None -> dcp2 d = None \/ match_group d = None ->
      (setting = Some 2 ->
       dcp2 d' <> None /\ run_dash.out_tab2 out <> None
       /\ run_dash.out_disabled out = false)
      /\ (setting = Some 3 ->
          dcp1 d' <> None /\ match_group d' <> None /\ match_df d' <> None
          /\ run_dash.out_tab2 out <> None
          /\ run_dash.out_disabled out = false)).
Proof.
  intros Hu Herr.
  destruct (is_none c1 && is_none c2 && is_none n1 && is_none n2)%bool eqn:Hpu.
  { unfold run_dash.upload in Hu. rewrite Hpu in Hu. discriminate. }
  rewrite (upload_eq _ _ _ _ _ _ _ _ Hpu) in Hu. cbv zeta in Hu.
  unfold run_dash.upload_try, bind in Hu.
  destruct (run_dash.upload_group1 c1 time n1 (run_dash.mkFrame d None None true))
    as [[u|e] fr1] eqn:H1.
  2:{ inversion Hu; subst. discriminate. }
  destruct (run_dash.upload_group2 c2 time n2 setting approx_deg fr1)
    as [[v|e] fr2] eqn:H2.
  2:{ inversion Hu; subst. discriminate. }
  inversion Hu; subst. clear Hu. cbn.
  destruct (group2_success _ _ _ _ _ _ _ _ H2) as (Hd1 & Ht1 & Hslot2).
  split; [reflexivity|]. split.
  - intro Hc1. destruct c1 as [c1|]; [|contradiction].
    destruct (group1_success _ _ _ _ _ _ H1) as (Hg & Ht & _).
    rewrite Hd1, Ht1. split; assumption.
  - intros Hc2 Hguard. apply Hslot2; [exact Hc2|].
    destruct c1 as [c1|].
    + destruct (group1_success _ _ _ _ _ _ H1) as (_ & _ & Hk2 & Hkg & _).
      cbn in Hk2, Hkg. rewrite Hk2, Hkg. exact Hguard.
    + cbn in H1. inversion H1; subst. exact Hguard.
Qed.
End Success.

(** Both slots under Comparison, from the initial state. *)
Lemma upload_success_witness :
  exists out d',
    run_dash.upload (L := Sample.lib) (Some [Sample.csv_a])
      (Some [Sample.csv_b]) (Some Sample.t072) (Some ["a.csv"])
      (Some ["b.csv"]) (Some 2) (Some 5) init = Some (out, d')
    /\ dcp1 d' <> None /\ dcp2 d' <> None
    /\ run_dash.out_disabled out = false.
Proof.
  pose (out := run_dash.mkUploadOutputs (L := Sample.lib)
                 (Some "modes") (Some "modes") false true true "" false).
  pose (d' := mkDashboard (L := Sample.lib)
                (Some (Sample.mkDecomposition
                         [Some [[Some 1; Some 2]; [Some 3; Some 4]]]
                         Sample.t072 true))
                (Some (Sample.mkDecomposition [Some [[Some 5; Some 6]]]
                         Sample.t072 true))
                None None None None (Some 2) 0 false false).
  assert (Hu : run_dash.upload (L := Sample.lib) (Some [Sample.csv_a])
                 (Some [Sample.csv_b]) (Some Sample.t072) (Some ["a.csv"])
                 (Some ["b.csv"]) (Some 2) (Some 5) init = Some (out, d'))
    by reflexivity.
  destruct (upload_success (L := Sample.lib) _ _ _ _ _ _ _ _ _ _ Hu eq_refl)
    as (_ & H1 & H2).
  exists out, d'. split; [exact Hu|].
  split; [exact (proj1 (H1 ltac:(discriminate)))|].
  destruct (proj1 (H2 ltac:(discriminate) (or_introl eq_refl)) eq_refl)
    as (Hd2 & _ & Hdis).
  split; [exact Hd2|exact Hdis].
Defined.

(** ** The working directories *)

Lemma node_induction (P : node -> Prop) :
  (forall locked, P (File locked)) ->
  (forall locked entries,
     Forall (fun e => P (snd e)) entries -> P (Dir locked entries)) ->
  forall n, P n.
Proof.
  intros HF HD. fix IH 1. intros [locked|locked entries].
  - apply HF.
  - apply HD. induction entries as [|[k c] r IHr]; constructor.
    + apply IH.
    + apply IHr.
Qed.

Lemma clear_entry_dir (locked : bool) (entries : list (string * node)) :
  utils.clear_entry (Dir locked entries)
  = let '(rest, k) := utils.clear_entries entries in
    match rest, locked with
    | [], false => (None, k)
    | _, _ => (Some (Dir locked rest), S k)
    end.
Proof. reflexivity. Qed.

Lemma stuck_dir (locked : bool) (entries : list (string * node)) :
  utils.stuck (Dir locked entries) = (locked || utils.any_stuck entries)%bool.
Proof. reflexivity. Qed.

Lemma entries_spec_of (entries : list (string * node)) :
  Forall (fun e => entry_spec (snd e)) entries -> entries_spec entries.
Proof.
  unfold entries_spec.
  induction 1 as [|[name c] r Hc Hr IHr]; simpl.
  - split; [auto|]. split; [discriminate|]. split; [constructor|reflexivity].
  - unfold entry_spec in Hc. simpl in Hc.
    destruct (utils.clear_entry c) as [[c'|] k].
    + destruct Hc as (Hs & Hs' & Hk & Hfix).
      destruct (utils.clear_entries r) as [r' k'].
      destruct IHr as (H1 & H2 & H3 & H4).
      rewrite Hs. simpl.
      split; [discriminate|].
      split; [intros _; split; [discriminate|lia]|].
      split; [constructor; assumption|].
      destruct (utils.clear_entry c') as [o kk]. simpl in Hfix. subst o.
      destruct (utils.clear_entries r') as [r'' k'']. simpl in H4.
      subst r''. reflexivity.
    + destruct Hc as (Hs & ->).
      destruct (utils.clear_entries r) as [r' k'].
      destruct IHr as (H1 & H2 & H3 & H4).
      rewrite Hs. simpl. auto.
Qed.

Lemma any_stuck_all (l : list (string * node)) :
  Forall (fun e => utils.stuck (snd e) = true) l ->
  utils.any_stuck l = negb (match l with [] => true | _ => false end).
Proof.
  destruct 1 as [|[name c] r Hc Hr]; simpl; [reflexivity|].
  simpl in Hc. rewrite Hc. reflexivity.
Qed.

Lemma clear_entry_spec (n : node) : entry_spec n.
Proof.
  induction n as [locked|locked entries IH] using node_induction.
  - unfold entry_spec. destruct locked; simpl; auto.
  - pose proof (entries_spec_of entries IH) as Hes.
    unfold entry_spec, entries_spec in *.
    rewrite clear_entry_dir, stuck_dir.
    destruct (utils.clear_entries entries) as [rest k].
    destruct Hes as (H1 & H2 & H3 & H4).
    destruct (utils.any_stuck entries) eqn:Hany.
    + destruct (H2 eq_refl) as [Hne Hk].
      destruct rest as [|e rest]; [contradiction|].
      rewrite orb_true_r.
      split; [reflexivity|]. split.
      { rewrite stuck_dir, (any_stuck_all _ H3). apply orb_true_r. }
      split; [lia|].
      rewrite clear_entry_dir.
      destruct (utils.clear_entries (e :: rest)) as [rest' k'].
      simpl in H4. subst rest'. reflexivity.
    + destruct (H1 eq_refl) as [-> ->].
      destruct locked; simpl; auto.
Qed.

Lemma clear_entries_spec (entries : list (string * node)) :
  entries_spec entries.
Proof.
  apply entries_spec_of. apply Forall_forall. intros e _.
  apply clear_entry_spec.
Qed.

Lemma listed_app (name : string) (es : list (string * node)) (n : node) :
  utils.listed name (es ++ [(name, n)]) = true.
Proof.
  induction es as [|[k c] r IH]; simpl.
  - rewrite String.eqb_refl. reflexivity.
  - rewrite IH. apply orb_true_r.
Qed.

(** X19.  [clear] keeps the directory and removes from it all that the
    system lets it remove: what is left are the entries that hold something
    the system refuses to remove, so with nothing refused the directory ends
    empty and nothing is logged, and otherwise at least one line is logged.
    Clearing again removes nothing more.  A path that is a file, or that
    does not exist, is left alone. *)
Theorem clear_leaves_stuck (locked : bool) (entries : list (string * node)) :
  (exists rest k,
     utils.clear (Some (Dir locked entries)) = (Some (Dir locked rest), k)
     /\ Forall (fun e => utils.stuck (snd e) = true) rest
     /\ (utils.any_stuck entries = false -> rest = [] /\ k = O)
     /\ (utils.any_stuck entries = true -> rest <> [] /\ (1 <= k)%nat)
     /\ fst (utils.clear (Some (Dir locked rest))) = Some (Dir locked rest))
  /\ utils.clear None = (None, O)
  /\ forall l, utils.clear (Some (File l)) = (Some (File l), O).
Proof.
  split; [|split; reflexivity].
  pose proof (clear_entries_spec entries) as H. unfold entries_spec in H.
  unfold utils.clear.
  destruct (utils.clear_entries entries) as [rest k].
  destruct H as (H1 & H2 & H3 & H4).
  exists rest, k. repeat split; try assumption.
  - apply H1. assumption.
  - apply H1. assumption.
  - apply H2. assumption.
  - apply H2. assumption.
  - destruct (utils.clear_entries rest) as [rest' k']. simpl in H4.
    subst rest'. reflexivity.
Qed.

Lemma clear_dir (locked : bool) (entries : list (string * node)) :
  exists rest k,
    utils.clear (Some (Dir locked entries)) = (Some (Dir locked rest), k)
    /\ (utils.any_stuck entries = false -> rest = [] /\ k = O).
Proof.
  pose proof (clear_entries_spec entries) as H. unfold entries_spec in H.
  unfold utils.clear.
  destruct (utils.clear_entries entries) as [rest k].
  destruct H as (H1 & _). exists rest, k. split; [reflexivity|exact H1].
Qed.

(** X20.  [reset_target] leaves the cache alone and ends with something at
    the target path: the directory it made, or what was there.  From no
    target, or from a target directory that holds nothing the system
    refuses to remove, the target ends as an empty directory and nothing is
    logged. *)
Theorem reset_target_outcome (fs : utils.dirs) :
  utils.cache (fst (utils.reset_target fs)) = utils.cache fs
  /\ utils.target (fst (utils.reset_target fs)) <> None
  /\ (utils.target fs = None ->
      utils.reset_target fs
      = (utils.mkDirs (Some (Dir false [])) (utils.cache fs), O))
  /\ (forall l es,
        utils.target fs = Some (Dir l es) -> utils.any_stuck es = false ->
        utils.reset_target fs
        = (utils.mkDirs (Some (Dir l [])) (utils.cache fs), O)).
Proof.
  unfold utils.reset_target, utils.clear_target.
  destruct fs as [t c]. simpl.
  destruct t as [[l|l es]|]; simpl.
  - repeat split; try discriminate; try (intros; discriminate).
  - destruct (clear_dir l es) as (rest & k & Hc & Hn).
    unfold utils.clear in Hc.
    destruct (utils.clear_entries es) as [rest' k']. inversion Hc; subst.
    simpl. repeat split; try discriminate.
    intros l0 es0 H Hs. inversion H; subst.
    destruct (Hn Hs) as [-> ->]. reflexivity.
  - repeat split; try discriminate; try (intros; discriminate).
Qed.

Lemma startup_made (t c : option node) :
  utils.startup (utils.mkDirs t c)
  = utils.startup (utils.mkDirs (made t) (made c)).
Proof. destruct t, c; reflexivity. Qed.

Lemma clear_entries_clean (es : list (string * node)) :
  exists rest k,
    utils.clear_entries es = (rest, k)
    /\ (utils.any_stuck es = false -> rest = [] /\ k = O).
Proof.
  pose proof (clear_entries_spec es) as H. unfold entries_spec in H.
  destruct (utils.clear_entries es) as [rest k].
  exists rest, k. split; [reflexivity|apply H].
Qed.

(** X21.  The start of [main.py] fails exactly when the cache path is a
    file.  Otherwise something is at the target path, the cache is a
    directory that lists [log.log], and when the two were directories (or
    missing) holding nothing the system refuses to remove, the target ends
    empty, the cache holds the new empty [log.log] and nothing else, and
    nothing is logged. *)
Theorem startup_outcome (fs : utils.dirs) :
  match utils.startup fs with
  | None => exists l, utils.cache fs = Some (File l)
  | Some (fs', k) =>
      (forall l, utils.cache fs <> Some (File l))
      /\ utils.target fs' <> None
      /\ (exists l es, utils.cache fs' = Some (Dir l es)
                       /\ utils.listed "log.log" es = true)
      /\ forall lt et lc ec,
           made (utils.target fs) = Some (Dir lt et) ->
           made (utils.cache fs) = Some (Dir lc ec) ->
           utils.any_stuck et = false -> utils.any_stuck ec = false ->
           fs' = utils.mkDirs (Some (Dir lt []))
                   (Some (Dir lc [("log.log", File false)]))
           /\ k = O
  end.
Proof.
  destruct fs as [t c]. rewrite startup_made.
  cbn [utils.target utils.cache].
  assert (Ht : exists nt, made t = Some nt)
    by (destruct t; unfold made, utils.mkdir; eauto).
  assert (Hc : exists nc, made c = Some nc)
    by (destruct c; unfold made, utils.mkdir; eauto).
  destruct Ht as [nt Ht]. destruct Hc as [nc Hc]. rewrite Ht, Hc.
  unfold utils.startup, utils.clear_target, utils.clear_cache, utils.clear.
  cbn [utils.target utils.cache].
  destruct nc as [lc|lc ec].
  - (* the cache path is a file *)
    assert (Hfile : exists l, c = Some (File l)).
    { destruct c as [[l|l es]|]; simpl in Hc; inversion Hc. eauto. }
    destruct nt as [lt|lt et]; cbn [utils.target utils.cache].
    + exact Hfile.
    + destruct (utils.clear_entries et). cbn [utils.target utils.cache].
      exact Hfile.
  - assert (Hnf : forall l, c <> Some (File l)).
    { intros l Hl. subst c. simpl in Hc. discriminate Hc. }
    destruct (clear_entries_clean ec) as (rc & kc & Hec & Hnc).
    destruct nt as [lt|lt et]; cbn [utils.target utils.cache].
    + rewrite Hec. cbn [utils.target utils.cache].
      split; [exact Hnf|]. split; [discriminate|]. split.
      * eexists. eexists. split; [reflexivity|].
        destruct (utils.listed "log.log" rc) eqn:Hl;
          [exact Hl|apply listed_app].
      * intros lt' et' lc' ec' H. discriminate H.
    + destruct (clear_entries_clean et) as (rt & kt & Het & Hnt).
      rewrite Het. cbn [utils.target utils.cache]. rewrite Hec.
      cbn [utils.target utils.cache].
      split; [exact Hnf|]. split; [discriminate|]. split.
      * eexists. eexists. split; [reflexivity|].
        destruct (utils.listed "log.log" rc) eqn:Hl;
          [exact Hl|apply listed_app].
      * intros lt' et' lc' ec' H1 H2 Hst Hsc.
        inversion H1; inversion H2; subst.
        destruct (Hnt Hst) as [-> ->]. destruct (Hnc Hsc) as [-> ->].
        split; reflexivity.
Qed.

(** ** The mode count over the atlas sizes *)

Lemma counts_ok_at (n : Z) (len a : nat) (prev : Z) :
  counts_ok n (Z.of_nat a) prev
    (map (fun deg => no_modes deg n) (map Z.of_nat (seq a len))) = true ->
  forall i, (a <= i < a + len)%nat ->
    exists v,
      no_modes (Z.of_nat i) n = Ok v
      /\ approxModeCount (Z.of_nat i) n - 1 <= v <= approxModeCount (Z.of_nat i) n
      /\ (i = a -> prev <= v)
      /\ (forall j w, (a <= j <= i)%nat ->
            no_modes (Z.of_nat j) n = Ok w -> w <= v).
Proof.
  revert a prev. induction len as [|len IH]; intros a prev H i Hi; [lia|].
  simpl in H.
  destruct (no_modes (Z.of_nat a) n) as [v|e] eqn:Hv; [|discriminate].
  apply andb_true_iff in H. destruct H as [H Hrest].
  apply andb_true_iff in H. destruct H as [H Hhi].
  apply andb_true_iff in H. destruct H as [Hprev Hlo].
  apply Z.leb_le in Hprev, Hlo, Hhi.
  replace (Z.of_nat a + 1) with (Z.of_nat (S a)) in Hrest by lia.
  destruct (Nat.eq_dec i a) as [->|Hne].
  - exists v. split; [exact Hv|]. split; [lia|]. split; [intros _; exact Hprev|].
    intros j w Hj Hw. assert (j = a) by lia. subst j.
    rewrite Hv in Hw. inversion Hw. lia.
  - destruct (IH (S a) v Hrest i ltac:(lia)) as (u & Hu & Hb & Hfirst & Hmono).
    exists u. split; [exact Hu|]. split; [exact Hb|]. split.
    + intro. contradiction.
    + intros j w Hj Hw. destruct (Nat.eq_dec j a) as [->|Hja].
      * rewrite Hv in Hw. inversion Hw; subst w.
        destruct (Nat.eq_dec i (S a)) as [->|Hi'].
        -- apply Hfirst. reflexivity.
        -- destruct (IH (S a) v Hrest (S a) ltac:(lia))
             as (u' & Hu' & _ & Hf' & _).
           specialize (Hf' eq_refl).
           specialize (Hmono (S a) u' ltac:(lia) Hu'). lia.
      * apply (Hmono j w); [lia|exact Hw].
Qed.

Lemma sizes_checked :
  forallb size_ok (map Z.of_nat (seq 0 401)) = true.
Proof. vm_cast_no_check (eq_refl true). Qed.

(** X22.  For every atlas size up to 400 and every degree from 0 to 100 the
    mode count is the floor of degree/100 x size or one less than it, never
    more; it is 0 at degree 0 and the size at degree 100, and it does not
    decrease when the degree grows. *)
Theorem no_modes_within_one (n deg : Z) :
  0 <= n <= 400 -> 0 <= deg <= 100 ->
  exists v,
    no_modes deg n = Ok v
    /\ approxModeCount deg n - 1 <= v <= approxModeCount deg n
    /\ no_modes 0 n = Ok 0 /\ no_modes 100 n = Ok n
    /\ forall deg' w, 0 <= deg' <= deg -> no_modes deg' n = Ok w -> w <= v.
Proof.
  intros Hn Hdeg.
  pose proof sizes_checked as H. rewrite forallb_forall in H.
  specialize (H n).
  assert (Hin : In n (map Z.of_nat (seq 0 401))).
  { apply in_map_iff. exists (Z.to_nat n). split; [lia|].
    apply in_seq. lia. }
  specialize (H Hin). unfold size_ok in H.
  apply andb_true_iff in H. destruct H as [H H100].
  apply andb_true_iff in H. destruct H as [Hc H0].
  unfold degrees in Hc.
  destruct (counts_ok_at n 101 0 0 Hc (Z.to_nat deg) ltac:(lia))
    as (v & Hv & Hb & _ & Hmono).
  rewrite Z2Nat.id in Hv, Hb by lia.
  exists v. split; [exact Hv|]. split; [exact Hb|].
  unfold same_count in H0, H100.
  destruct (no_modes 0 n) as [v0|]; [|discriminate].
  destruct (no_modes 100 n) as [v1|]; [|discriminate].
  apply Z.eqb_eq in H0, H100. subst.
  repeat split.
  intros deg' w Hd Hw.
  apply (Hmono (Z.to_nat deg') w); [lia|].
  rewrite Z2Nat.id by lia. exact Hw.
Qed.

Lemma no_modes_within_one_witness :
  exists v, no_modes 29 400 = Ok v /\ 115 <= v <= 116.
Proof.
  destruct (no_modes_within_one 400 29 ltac:(lia) ltac:(lia))
    as (v & Hv & Hb & _).
  exists v. split; [exact Hv|exact Hb].
Defined.

(** ** The progress bar wraps *)



(** ** The views of the second slot *)

Section Views.
Context {L : Collaborators}.

(** X24.  The three callbacks that lay out the second upload slot agree.
    Where [input_setting] hides it (no setting, or Analysis) the second tab
    gets no label and its progress bar is never shown, whatever is loaded;
    where it is shown (Comparison, Mode Matching) the tab and the slot both
    get a title.  The approximation-degree input is shown under Mode
    Matching only.  A value that is none of the radio's makes both
    [input_setting] and [update_tab_labels] return [None]. *)
Theorem second_slot_views (setting : option Z) :
  (run_dash.input_setting setting = None
   <-> views.update_tab_labels setting = ReturnsNone)
  /\ forall view,
       run_dash.input_setting setting = Some view ->
       (run_dash.approx_deg_div view = run_dash.show <-> setting = Some 3)
       /\ if match run_dash.upload_2_div view with
             | run_dash.hide => true
             | _ => false
             end
          then run_dash.group_2_title view = None
               /\ (views.update_tab_labels setting = PreventUpdate
                   \/ exists l1, views.update_tab_labels setting
                                 = Returned (l1, ""))
               /\ forall c1 c2 (d : Dashboard),
                    views.progress_file c1 c2 setting d = PreventUpdate
                    \/ exists s1, views.progress_file c1 c2 setting d
                                  = Returned (s1, run_dash.hide)
          else exists t2 l1 l2,
                 run_dash.group_2_title view = Some t2
                 /\ views.update_tab_labels setting = Returned (l1, l2)
                 /\ l2 <> "".
Proof.
  unfold run_dash.input_setting, views.update_tab_labels, views.progress_file.
  destruct setting as [s|].
  - setting_cases s; eval_tests.
    + split; [split; discriminate|].
      intros view H. inversion H; subst. cbn.
      split; [split; discriminate|].
      split; [reflexivity|]. split; [right; eauto|].
      intros c1 c2 d. right. eauto.
    + split; [split; discriminate|].
      intros view H. inversion H; subst. cbn.
      split; [split; discriminate|].
      do 3 eexists. repeat split. discriminate.
    + split; [split; discriminate|].
      intros view H. inversion H; subst. cbn.
      split; [split; reflexivity|].
      do 3 eexists. repeat split. discriminate.
    + split; [split; reflexivity|]. intros view H. discriminate H.
  - split; [split; discriminate|].
    intros view H. inversion H; subst. cbn.
    split; [split; discriminate|].
    split; [reflexivity|]. split; [left; reflexivity|].
    intros c1 c2 d. left. reflexivity.
Qed.

Lemma upload_frames c1 c2 time n1 n2 setting approx_deg
  (d d' : Dashboard) (out : run_dash.UploadOutputs) :
  run_dash.upload c1 c2 time n1 n2 setting approx_deg d = Some (out, d') ->
  run_dash.out_error out = false ->
  exists u v fr1 fr2,
    run_dash.upload_group1 c1 time n1 (run_dash.mkFrame d None None true)
    = (Ok u, fr1)
    /\ run_dash.upload_group2 c2 time n2 setting approx_deg fr1 = (Ok v, fr2)
    /\ d' = run_dash.self fr2.
Proof.
  intros Hu Herr.
  destruct (is_none c1 && is_none c2 && is_none n1 && is_none n2)%bool eqn:Hpu.
  { unfold run_dash.upload in Hu. rewrite Hpu in Hu. discriminate. }
  rewrite (upload_eq _ _ _ _ _ _ _ _ Hpu) in Hu. cbv zeta in Hu.
  unfold run_dash.upload_try, bind in Hu.
  destruct (run_dash.upload_group1 c1 time n1 (run_dash.mkFrame d None None true))
    as [[u|e] fr1] eqn:H1.
  2:{ inversion Hu; subst. discriminate. }
  destruct (run_dash.upload_group2 c2 time n2 setting approx_deg fr1)
    as [[v|e] fr2] eqn:H2.
  2:{ inversion Hu; subst. discriminate. }
  inversion Hu; subst. exists u, v, fr1, fr2. auto.
Qed.

(** X25.  After an upload that reports no error, made where a comparison
    group or a match group was still missing, the upload progress bars are
    hidden: under Comparison and Mode Matching both of them, and under
    Analysis when files came with the first slot. *)
Theorem bars_hidden_after_success c1 c2 time n1 n2 setting approx_deg
  (d d' : Dashboard) (out : run_dash.UploadOutputs) :
  run_dash.upload c1 c2 time n1 n2 setting approx_deg d = Some (out, d') ->
  run_dash.out_error out = false ->
  dcp2 d = None \/ match_group d = None ->
  setting = Some 2 \/ setting = Some 3 \/ (setting = Some 1 /\ c1 <> None) ->
  views.progress_file c1 c2 setting d'
  = Returned (run_dash.hide, run_dash.hide).
Proof.
  intros Hu Herr Hguard Hs.
  destruct (upload_frames _ _ _ _ _ _ _ _ _ _ Hu Herr)
    as (u & v & fr1 & fr2 & H1 & H2 & ->).
  destruct (group2_success _ _ _ _ _ _ _ _ H2) as (Hd1 & _ & Hslot2).
  assert (Hguard1 : dcp2 (run_dash.self fr1) = None
                    \/ match_group (run_dash.self fr1) = None).
  { destruct c1 as [c1|].
    - destruct (group1_success _ _ _ _ _ _ H1) as (_ & _ & Hk2 & Hkg & _).
      cbn in Hk2, Hkg. rewrite Hk2, Hkg. exact Hguard.
    - cbn in H1. inversion H1; subst. exact Hguard. }
  assert (Hbar1 : (is_none (dcp1 (run_dash.self fr2)) && negb (is_none c1))%bool
                  = false).
  { destruct c1 as [c1|]; [|apply andb_false_r].
    destruct (group1_success _ _ _ _ _ _ H1) as (Hg & _).
    rewrite Hd1. destruct (dcp1 (run_dash.self fr1)); [reflexivity|contradiction]. }
  unfold views.progress_file.
  destruct Hs as [-> | [-> | [-> Hc1]]]; eval_tests.
  - rewrite Hbar1.
    destruct c2 as [c2|]; [|rewrite andb_false_r; reflexivity].
    destruct (proj1 (Hslot2 ltac:(discriminate) Hguard1) eq_refl) as (H & _).
    destruct (dcp2 (run_dash.self fr2)); [reflexivity|contradiction].
  - rewrite Hbar1.
    destruct c2 as [c2|]; [|rewrite andb_false_r; reflexivity].
    destruct (proj2 (Hslot2 ltac:(discriminate) Hguard1) eq_refl)
      as (_ & _ & H & _).
    destruct (match_df (run_dash.self fr2)); [reflexivity|contradiction].
  - destruct c1 as [c1|]; [|contradiction].
    destruct (group1_success _ _ _ _ _ _ H1) as (Hg & _).
    rewrite Hd1. destruct (dcp1 (run_dash.self fr1)); [reflexivity|contradiction].
Qed.

End Views.

(** Both slots under Comparison, from the initial state. *)
Lemma bars_hidden_after_success_witness :
  views.progress_file (L := Sample.lib) (Some [Sample.csv_a])
    (Some [Sample.csv_b]) (Some 2)
    (mkDashboard (L := Sample.lib)
       (Some (Sample.mkDecomposition
                [Some [[Some 1; Some 2]; [Some 3; Some 4]]] Sample.t072 true))
       (Some (Sample.mkDecomposition [Some [[Some 5; Some 6]]]
                Sample.t072 true))
       None None None None (Some 2) 0 false false)
  = Returned (run_dash.hide, run_dash.hide).
Proof.
  exact (bars_hidden_after_success (L := Sample.lib) (Some [Sample.csv_a])
           (Some [Sample.csv_b]) (Some Sample.t072) (Some ["a.csv"])
           (Some ["b.csv"]) (Some 2) (Some 5) init _
           (run_dash.mkUploadOutputs (L := Sample.lib)
              (Some "modes") (Some "modes") false true true "" false)
           eq_refl eq_refl (or_introl eq_refl) (or_introl eq_refl)).
Defined.

(** ** The download slot *)


(** ** The radar *)

(** X27.  From the initial state, through any events in which Run is
    clicked under one of the settings of the radio, a request for the radar
    with valid input and a number of modes never fails on a missing
    reference.  With no comparison group the radar of the reference is
    rendered; with one, it is rendered with both groups exactly when the two
    atlases are equal, and the request ends in [AssertionError] when they
    differ. *)
Theorem radar_outcome {L : Collaborators}
  (dcp_df : Decomposition -> DataFrame)
  (atlas_eq : option Atlas -> option Atlas -> bool)
  (es : list run_dash.event) (n nom : Z) :
  radio_settings es = true ->
  valid (run_dash.handle_all es init) = true ->
  exists g1,
    dcp1 (run_dash.handle_all es init) = Some g1
    /\ views.compute_radar dcp_df atlas_eq (Some n) (Some nom)
         (run_dash.handle_all es init)
       = match dcp2 (run_dash.handle_all es init) with
         | None =>
             views.Renders
               (dcp_df g1, dcp_atlas g1, None,
                imag (run_dash.handle_all es init), nom + 1)
         | Some g2 =>
             if atlas_eq (dcp_atlas g1) (dcp_atlas g2)
             then views.Renders
                    (dcp_df g1, dcp_atlas g1, Some (dcp_df g2),
                     imag (run_dash.handle_all es init), nom + 1)
             else views.AssertionError
         end.
Proof.
  intros Hes Hvalid.
  pose proof (handle_all_has_reference es init Hes
                ltac:(intro H; discriminate H) Hvalid) as Href.
  destruct (dcp1 (run_dash.handle_all es init)) as [g1|] eqn:H1;
    [|contradiction].
  exists g1. split; [reflexivity|].
  unfold views.compute_radar, views._filter_radar.
  rewrite Hvalid, H1. cbn [negb].
  destruct (dcp2 (run_dash.handle_all es init)) as [g2|]; [|reflexivity].
  destruct (atlas_eq (dcp_atlas g1) (dcp_atlas g2)); reflexivity.
Qed.

(** Under Analysis the radar of the reference is rendered. *)
Lemma radar_outcome_witness :
  exists g1,
    dcp1 (run_dash.handle_all (L := Sample.lib) Sample.analysis_only init)
    = Some g1.
Proof.
  destruct (radar_outcome (L := Sample.lib) (fun _ => 0)
              (fun a b => match a, b with
                          | Some x, Some y => x =? y
                          | None, None => true
                          | _, _ => false
                          end)
              Sample.analysis_only 1 5 eq_refl eq_refl) as (g1 & H1 & _).
  exists g1. exact H1.
Defined.
